(** * list_flows.py: the flow lister script

    A shallow embedding of [src/list_flows.py] and the proofs of the
    properties its specification states about it.

    The script is a straight line of effects: read a credential from the
    environment, POST one JSON-RPC request, decode the answer twice, write
    the inner payload to a file and print a summary.  The embedding keeps
    that shape: a small trace-and-exit monad [proc] records the prints, the
    network call and the file write in the order the script performs them,
    and stops at [exit(1)] or at an exception nobody catches.

    Conventions.
    - A Python [str] is a [string]; one [ascii] stands for one character,
      so the model covers text whose code points are below 256.
    - [bytes] is [list byte].
    - The decoders of the Python library ([json.loads], [bytes.decode]) are
      not part of the script: they are the fields of a record [pylib] the
      script is run against.  [json.dumps], whose output the properties
      speak about, is modelled in full. *)

From Stdlib Require Import ZArith List Bool Lia.
From Stdlib Require Import Strings.String Strings.Ascii Strings.Byte.
From Stdlib Require Import Numbers.DecimalString.
Import ListNotations.

Open Scope list_scope.
Open Scope string_scope.

Set Warnings "-register-all".

(** ** Text *)

Definition chr (n : nat) : string := String (ascii_of_nat n) EmptyString.

Definition newline : string := chr 10.
Definition dquote : string := chr 34.
Definition squote : string := chr 39.
Definition backslash : string := chr 92.

(** [s[:n]] on a [str]. *)
Fixpoint take (n : nat) (s : string) : string :=
  match n, s with
  | S n', String c s' => String c (take n' s')
  | _, _ => EmptyString
  end.

(** [" " * n]. *)
Fixpoint spaces (n : nat) : string :=
  match n with
  | O => EmptyString
  | S n' => String " "%char (spaces n')
  end.

(** [needle in s] for two strings. *)
Fixpoint occurs (needle s : string) : bool :=
  String.prefix needle s ||
  match s with
  | EmptyString => false
  | String _ s' => occurs needle s'
  end.

(** [sep.join(parts)]. *)
Definition join (sep : string) (parts : list string) : string :=
  String.concat sep parts.

(** [str(n)] for an [int]. *)
Definition str_of_int (n : Z) : string :=
  NilZero.string_of_int (Z.to_int n).

(** Format spec [<width] applied to text: left-aligned in a field of at
    least [width] characters, filled with spaces on the right, never cut. *)
Definition ljust (width : nat) (s : string) : string :=
  s ++ spaces (width - String.length s).

(** [str.encode()]: UTF-8, for code points below 256. *)
Definition utf8_char (c : ascii) : list byte :=
  let n := N_of_ascii c in
  if (n <? 128)%N then [byte_of_ascii c]
  else match Byte.of_N (192 + N.shiftr n 6), Byte.of_N (128 + N.land n 63) with
       | Some hi, Some lo => [hi; lo]
       | _, _ => []
       end.

Fixpoint str_encode (s : string) : list byte :=
  match s with
  | EmptyString => []
  | String c s' => (utf8_char c ++ str_encode s')%list
  end.

(** ** JSON values, as [json.loads] builds them *)

(** A [float]; a finite one is kept as the text [float.__repr__] gives. *)
Inductive pyfloat : Type :=
| FNan
| FInf
| FNegInf
| FFinite (repr : string).

(** [JObj] keeps the insertion order of a [dict], which [json.dumps]
    follows; the keys of a decoded object are strings. *)
Inductive json : Type :=
| JNull
| JBool (b : bool)
| JInt (n : Z)
| JFloat (f : pyfloat)
| JStr (s : string)
| JArr (items : list json)
| JObj (fields : list (string * json)).

Fixpoint lookup (k : string) (m : list (string * json)) : option json :=
  match m with
  | [] => None
  | (k', v) :: m' => if String.eqb k k' then Some v else lookup k m'
  end.

Definition has_key (k : string) (m : list (string * json)) : bool :=
  match lookup k m with Some _ => true | None => false end.

(** [k == v] for a string [k]. *)
Definition is_str (k : string) (v : json) : bool :=
  match v with
  | JStr s => String.eqb k s
  | _ => false
  end.

(** ** json.dumps *)

Definition hexdigit (n : N) : ascii :=
  if (n <? 10)%N then ascii_of_N (48 + n) else ascii_of_N (87 + n).

Definition hex2 (n : N) : string :=
  String (hexdigit (N.shiftr n 4)) (String (hexdigit (N.land n 15)) EmptyString).

(** One character under [ensure_ascii]: the short escapes, [\u00xx] for
    whatever lies outside [' '..'~'], the character itself otherwise. *)
Definition escape_ascii (c : ascii) : string :=
  let n := N_of_ascii c in
  if (n =? 34)%N then backslash ++ dquote
  else if (n =? 92)%N then backslash ++ backslash
  else if (n =? 10)%N then backslash ++ "n"
  else if (n =? 13)%N then backslash ++ "r"
  else if (n =? 9)%N then backslash ++ "t"
  else if (n =? 12)%N then backslash ++ "f"
  else if (n =? 8)%N then backslash ++ "b"
  else if ((32 <=? n) && (n <=? 126))%N then String c EmptyString
  else backslash ++ "u00" ++ hex2 n.

Fixpoint escape_body (s : string) : string :=
  match s with
  | EmptyString => EmptyString
  | String c s' => escape_ascii c ++ escape_body s'
  end.

Definition encode_basestring_ascii (s : string) : string :=
  dquote ++ escape_body s ++ dquote.

Definition floatstr (f : pyfloat) : string :=
  match f with
  | FNan => "NaN"
  | FInf => "Infinity"
  | FNegInf => "-Infinity"
  | FFinite r => r
  end.

(** ["\n" + indent * level], or nothing when there is no indent. *)
Definition newline_indent (indent : option nat) (level : nat) : string :=
  match indent with
  | Some w => newline ++ spaces (w * level)
  | None => EmptyString
  end.

Definition item_separator (indent : option nat) : string :=
  match indent with
  | Some _ => ","
  | None => ", "
  end.

Definition key_separator : string := ": ".

(** The encoder at nesting depth [level]; [indent = None] is the compact
    form, [Some 2] is [indent=2]. *)
Fixpoint iterencode (indent : option nat) (level : nat) (v : json) : string :=
  match v with
  | JNull => "null"
  | JBool true => "true"
  | JBool false => "false"
  | JInt n => str_of_int n
  | JFloat f => floatstr f
  | JStr s => encode_basestring_ascii s
  | JArr [] => "[]"
  | JArr (x :: xs) =>
      "[" ++ newline_indent indent (S level)
          ++ iterencode indent (S level) x
          ++ (fix rest (l : list json) : string :=
                match l with
                | [] => EmptyString
                | y :: l' =>
                    item_separator indent ++ newline_indent indent (S level)
                      ++ iterencode indent (S level) y ++ rest l'
                end) xs
          ++ newline_indent indent level ++ "]"
  | JObj [] => "{}"
  | JObj ((k, x) :: kxs) =>
      "{" ++ newline_indent indent (S level)
          ++ encode_basestring_ascii k ++ key_separator
          ++ iterencode indent (S level) x
          ++ (fix rest (l : list (string * json)) : string :=
                match l with
                | [] => EmptyString
                | (k', y) :: l' =>
                    item_separator indent ++ newline_indent indent (S level)
                      ++ encode_basestring_ascii k' ++ key_separator
                      ++ iterencode indent (S level) y ++ rest l'
                end) kxs
          ++ newline_indent indent level ++ "}"
  end.

(** [json.dumps(v)] and [json.dumps(v, indent=2)]. *)
Definition dumps (v : json) : string := iterencode None 0 v.
Definition dumps_indent (w : nat) (v : json) : string := iterencode (Some w) 0 v.

(** ** str(), repr() and format() on decoded values *)

(** [repr] of a [str] picks the quote the text does not force it to
    escape. *)
Definition repr_quote (s : string) : string :=
  if occurs squote s && negb (occurs dquote s) then dquote else squote.

Definition repr_char (q : string) (c : ascii) : string :=
  let n := N_of_ascii c in
  if String.eqb (String c EmptyString) q || (n =? 92)%N
  then backslash ++ String c EmptyString
  else if (n =? 9)%N then backslash ++ "t"
  else if (n =? 10)%N then backslash ++ "n"
  else if (n =? 13)%N then backslash ++ "r"
  else if ((n <? 32) || (n =? 127) || ((128 <=? n) && (n <=? 160)) || (n =? 173))%N
  then backslash ++ "x" ++ hex2 n
  else String c EmptyString.

Fixpoint repr_body (q s : string) : string :=
  match s with
  | EmptyString => EmptyString
  | String c s' => repr_char q c ++ repr_body q s'
  end.

Definition repr_str (s : string) : string :=
  let q := repr_quote s in q ++ repr_body q s ++ q.

Definition repr_float (f : pyfloat) : string :=
  match f with
  | FNan => "nan"
  | FInf => "inf"
  | FNegInf => "-inf"
  | FFinite r => r
  end.

Fixpoint py_repr (v : json) : string :=
  match v with
  | JNull => "None"
  | JBool true => "True"
  | JBool false => "False"
  | JInt n => str_of_int n
  | JFloat f => repr_float f
  | JStr s => repr_str s
  | JArr l => "[" ++ join ", " (map py_repr l) ++ "]"
  | JObj m =>
      "{" ++ join ", " (map (fun kv => repr_str (fst kv) ++ ": " ++ py_repr (snd kv)) m)
          ++ "}"
  end.

(** [str(v)], what an f-string field without a format spec shows. *)
Definition py_str (v : json) : string :=
  match v with
  | JStr s => s
  | _ => py_repr v
  end.

(** ** Exceptions and partial operations *)

Inductive exn : Type :=
| KeyError
| IndexError
| TypeError
| AttributeError
| ValueError
| URLError.

Inductive result (A : Type) : Type :=
| Ok (a : A)
| Raise (e : exn).
Arguments Ok {A} a.
Arguments Raise {A} e.

(** [needle in v]. *)
Definition contains (needle : string) (v : json) : result bool :=
  match v with
  | JObj m => Ok (has_key needle m)
  | JArr l => Ok (existsb (is_str needle) l)
  | JStr s => Ok (occurs needle s)
  | _ => Raise TypeError
  end.

(** [v[k]] for a string [k]. *)
Definition getitem (v : json) (k : string) : result json :=
  match v with
  | JObj m => match lookup k m with
              | Some x => Ok x
              | None => Raise KeyError
              end
  | _ => Raise TypeError
  end.

(** [v[i]] for a non-negative integer [i]; an object has string keys
    only, so the lookup of an integer in it fails. *)
Definition getindex (v : json) (i : nat) : result json :=
  match v with
  | JArr l => match nth_error l i with
              | Some x => Ok x
              | None => Raise IndexError
              end
  | JStr s => match String.get i s with
              | Some c => Ok (JStr (String c EmptyString))
              | None => Raise IndexError
              end
  | JObj _ => Raise KeyError
  | _ => Raise TypeError
  end.

Definition and_then {A B : Type} (r : result A) (k : A -> result B) : result B :=
  match r with
  | Ok a => k a
  | Raise e => Raise e
  end.

(** [resp["result"]["content"][0]["text"]]. *)
Definition result_text (resp : json) : result json :=
  and_then (getitem resp "result") (fun result =>
  and_then (getitem result "content") (fun content =>
  and_then (getindex content 0) (fun first =>
  getitem first "text"))).

(** [v.get(k, default)]: only a [dict] has the method. *)
Definition dict_get (v : json) (k : string) (default : json) : result json :=
  match v with
  | JObj m => match lookup k m with
              | Some x => Ok x
              | None => Ok default
              end
  | _ => Raise AttributeError
  end.

(** [v[:n]]: text and lists can be sliced.  The slice of a [dict] fails
    (TypeError before Python 3.12, KeyError since). *)
Definition slice_to (n : nat) (v : json) : result json :=
  match v with
  | JStr s => Ok (JStr (take n s))
  | JArr l => Ok (JArr (firstn n l))
  | _ => Raise TypeError
  end.

(** [format(v, "<width")], the f-string field [{v:<width}]: numbers are
    shown in decimal ([True] as [1]), [None] and containers take no
    format spec. *)
Definition format_left (width : nat) (v : json) : result string :=
  match v with
  | JStr s => Ok (ljust width s)
  | JInt n => Ok (ljust width (str_of_int n))
  | JBool b => Ok (ljust width (if b then "1" else "0"))
  | JFloat f => Ok (ljust width (repr_float f))
  | JNull | JArr _ | JObj _ => Raise TypeError
  end.

(** ** The process: a trace of effects, then an exit *)

Record request : Type := {
  req_url : string;
  req_data : list byte;
  req_headers : list (string * string)
}.

Inductive event : Type :=
| Print (text : string)
| Urlopen (req : request) (timeout : Z)
| WriteFile (path : string) (content : string).

(** How a process ends: [exit(n)] or falling off the end of the script
    ([Exit 0]), or an exception that reaches the top level. *)
Inductive outcome : Type :=
| Exit (status : Z)
| Uncaught (e : exn).

(** The exit status the shell sees; the interpreter turns an uncaught
    exception into status 1. *)
Definition exit_status (o : outcome) : Z :=
  match o with
  | Exit n => n
  | Uncaught _ => 1
  end.

Inductive step (A : Type) : Type :=
| Next (a : A)
| Stop (o : outcome).
Arguments Next {A} a.
Arguments Stop {A} o.

Definition proc (A : Type) : Type := (list event * step A)%type.

Definition ret {A : Type} (a : A) : proc A := ([], Next a).

Definition bind {A B : Type} (m : proc A) (k : A -> proc B) : proc B :=
  match m with
  | (t, Next a) => let (t', r) := k a in ((t ++ t')%list, r)
  | (t, Stop o) => (t, Stop o)
  end.

Notation "x <- m ;; k" := (bind m (fun x => k))
  (at level 61, m at next level, right associativity).
Notation "m ;; k" := (bind m (fun _ => k))
  (at level 61, right associativity).

Definition emit (e : event) : proc unit := ([e], Next tt).

(** [print(a, b, ...)]: the arguments separated by a space, then a
    newline. *)
Definition print (args : list string) : proc unit :=
  emit (Print (join " " args ++ newline)).

Definition exit {A : Type} (n : Z) : proc A := ([], Stop (Exit n)).

Definition raise {A : Type} (e : exn) : proc A := ([], Stop (Uncaught e)).

Definition lift {A : Type} (r : result A) : proc A :=
  match r with
  | Ok a => ret a
  | Raise e => raise e
  end.

Definition lift_opt {A : Type} (e : exn) (r : option A) : proc A :=
  match r with
  | Some a => ret a
  | None => raise e
  end.

Fixpoint for_each {A : Type} (l : list A) (body : A -> proc unit) : proc unit :=
  match l with
  | [] => ret tt
  | x :: l' => body x ;; for_each l' body
  end.

(** The whole script: what it did and how it ended. *)
Definition finish (m : proc unit) : list event * outcome :=
  match m with
  | (t, Next _) => (t, Exit 0)
  | (t, Stop o) => (t, o)
  end.

(** ** What the script runs against *)

(** What [urlopen(req, timeout=60).read()] comes to. *)
Inductive reply : Type :=
| Body (raw : list byte)
| HTTPError (code : Z) (body : list byte)
| Fault.

Record world : Type := {
  environ : string -> option string;
  server : request -> reply
}.

(** The decoders of the Python library; [None] is the exception each of
    them raises on input it rejects. *)
Record pylib : Type := {
  bytes_decode : list byte -> option string;
  loads_bytes : list byte -> option json;
  loads_str : string -> option json
}.

(** [os.environ.get(name, default)]. *)
Definition environ_get (w : world) (name default : string) : string :=
  match environ w name with
  | Some v => v
  | None => default
  end.

(** Truth of a [str]: the empty text is false. *)
Definition truthy (s : string) : bool :=
  match s with
  | EmptyString => false
  | String _ _ => true
  end.

Definition is_dict (v : json) : bool :=
  match v with
  | JObj _ => true
  | _ => false
  end.

Definition is_list (v : json) : bool :=
  match v with
  | JArr _ => true
  | _ => false
  end.

(** [isinstance(v, dict) and "error" in v]. *)
Definition has_error_field (v : json) : bool :=
  match v with
  | JObj m => has_key "error" m
  | _ => false
  end.

(** ** The script *)

Definition token_var : string := "FLOWSTUDIO_MCP_TOKEN_FS".
Definition endpoint : string := "https://mcp.flowstudio.app/mcp".
Definition snapshot_path : string :=
  "c:\Users\ninih\GitHub\FlowStudio MCP\mcp_flows.json".

Definition payload : json :=
  JObj [("jsonrpc", JStr "2.0"); ("id", JInt 1); ("method", JStr "tools/list");
        ("params", JObj [])].

Definition build_request (token : string) : request :=
  {| req_url := endpoint;
     req_data := str_encode (dumps payload);
     req_headers := [("x-api-key", token);
                     ("Content-Type", "application/json");
                     ("User-Agent", "FlowStudio-MCP/1.0")] |}.

Section Script.

Variable py : pylib.

(** [json.loads(v)] on a decoded value: text is decoded, anything else
    is refused. *)
Definition json_loads (v : json) : proc json :=
  match v with
  | JStr s => lift_opt ValueError (loads_str py s)
  | _ => raise TypeError
  end.

(** Lines 3-6. *)
Definition acquire_token (w : world) : proc string :=
  let token := environ_get w token_var EmptyString in
  if negb (truthy token)
  then print ["NO TOKEN SET"] ;; exit 1
  else ret token.

(** Lines 23-28: the [try] block and its one handler, given what the
    call came to. *)
Definition handle_reply (r : reply) : proc json :=
  match r with
  | Body raw => lift_opt ValueError (loads_bytes py raw)
  | HTTPError code body =>
      text <- lift_opt ValueError (bytes_decode py body) ;;
      print ["HTTP " ++ str_of_int code ++ ": " ++ take 300 text] ;;
      exit 1
  | Fault => raise URLError
  end.

Definition call_server (w : world) (req : request) : proc json :=
  emit (Urlopen req 60) ;;
  handle_reply (server w req).

(** Lines 30-32. *)
Definition check_envelope (resp : json) : proc unit :=
  has_error <- lift (contains "error" resp) ;;
  if has_error
  then err <- lift (getitem resp "error") ;;
       print ["JSON-RPC ERROR:"; dumps_indent 2 err] ;;
       exit 1
  else ret tt.

(** Line 34: the argument of the second [json.loads], then the call. *)
Definition extract_inner (resp : json) : proc json :=
  text <- lift (result_text resp) ;;
  json_loads text.

(** Lines 36-37. *)
Definition persist (inner : json) : proc unit :=
  emit (WriteFile snapshot_path (dumps_indent 2 inner)).

(** Lines 42-46: the body of the loop. *)
Definition print_flow (fl : json) : proc unit :=
  fid0 <- lift (dict_get fl "id" (JStr "?")) ;;
  fid <- lift (slice_to 12 fid0) ;;
  name <- lift (dict_get fl "displayName" (JStr "?")) ;;
  state <- lift (dict_get fl "state" (JStr "?")) ;;
  trigger <- lift (dict_get fl "triggerType" (JStr "?")) ;;
  state_field <- lift (format_left 10 state) ;;
  trigger_field <- lift (format_left 15 trigger) ;;
  print ["  " ++ py_str fid ++ "..  | " ++ state_field ++ " | "
              ++ trigger_field ++ " | " ++ py_str name].

(** Lines 39-50. *)
Definition present (inner : json) : proc unit :=
  match inner with
  | JArr flows =>
      print ["Total flows: " ++ str_of_int (Z.of_nat (List.length flows)) ++ newline] ;;
      for_each flows print_flow
  | _ =>
      is_error <- (if is_dict inner then lift (contains "error" inner)
                   else ret false) ;;
      if is_error
      then err <- lift (getitem inner "error") ;;
           print ["ERROR:"; dumps_indent 2 err]
      else print [take 2000 (dumps_indent 2 inner)]
  end.

(** Lines 3-34: from the environment to the inner payload. *)
Definition fetch (w : world) : proc json :=
  token <- acquire_token w ;;
  resp <- call_server w (build_request token) ;;
  check_envelope resp ;;
  extract_inner resp.

Definition script (w : world) : proc unit :=
  inner <- fetch w ;;
  persist inner ;;
  present inner.

Definition main (w : world) : list event * outcome :=
  finish (script w).

End Script.

(** ** What a run leaves behind *)

(** Everything written to standard output. *)
Fixpoint stdout (t : list event) : string :=
  match t with
  | [] => EmptyString
  | Print text :: t' => text ++ stdout t'
  | _ :: t' => stdout t'
  end.

(** The content of the snapshot file after the run, [old] being what was
    there before ([None]: no file). *)
Fixpoint snapshot_after (old : option string) (t : list event) : option string :=
  match t with
  | [] => old
  | WriteFile path content :: t' =>
      snapshot_after (if String.eqb path snapshot_path then Some content else old) t'
  | _ :: t' => snapshot_after old t'
  end.

Definition is_urlopen (e : event) : bool :=
  match e with Urlopen _ _ => true | _ => false end.

Definition is_write (e : event) : bool :=
  match e with WriteFile _ _ => true | _ => false end.

Definition is_print (e : event) : bool :=
  match e with Print _ => true | _ => false end.

Definition network_calls (t : list event) : list event := filter is_urlopen t.
Definition file_writes (t : list event) : list event := filter is_write t.

(** What the run wrote to the snapshot file, if it wrote to it: the
    content of its last write. *)
Fixpoint snapshot_written (t : list event) : option string :=
  match t with
  | [] => None
  | WriteFile path content :: t' =>
      match snapshot_written t' with
      | Some c => Some c
      | None => if String.eqb path snapshot_path then Some content else None
      end
  | _ :: t' => snapshot_written t'
  end.

(** ** A decoder to run the script on concrete answers

    The script is verified against any [pylib].  To run it on concrete
    server answers the examples use the decoder below.  It reads JSON
    text the way [json.loads] does as long as the text has no number with
    a fraction or an exponent and no [\u] escape above [\u00ff]; it gives
    [None] on those, which the examples stay clear of. *)

Module Decoder.

Definition is_ws (c : ascii) : bool :=
  let n := N_of_ascii c in
  ((n =? 32) || (n =? 9) || (n =? 10) || (n =? 13))%N.

Fixpoint skip_ws (s : string) : string :=
  match s with
  | String c s' => if is_ws c then skip_ws s' else s
  | EmptyString => s
  end.

Definition digit_of (c : ascii) : option Z :=
  let n := N_of_ascii c in
  if ((48 <=? n) && (n <=? 57))%N then Some (Z.of_N n - 48)%Z else None.

Definition hex_of (c : ascii) : option N :=
  let n := N_of_ascii c in
  if ((48 <=? n) && (n <=? 57))%N then Some (n - 48)%N
  else if ((97 <=? n) && (n <=? 102))%N then Some (n - 87)%N
  else if ((65 <=? n) && (n <=? 70))%N then Some (n - 55)%N
  else None.

(** The digits that follow, read onto [acc]. *)
Fixpoint digits (acc : Z) (s : string) : Z * string :=
  match s with
  | String c s' =>
      match digit_of c with
      | Some d => digits (10 * acc + d)%Z s'
      | None => (acc, s)
      end
  | EmptyString => (acc, s)
  end.

Definition starts_fraction (s : string) : bool :=
  match s with
  | String c _ => let n := N_of_ascii c in ((n =? 46) || (n =? 101) || (n =? 69))%N
  | EmptyString => false
  end.

(** [0] or a digit string without a leading zero; a fraction or an
    exponent after it is refused. *)
Definition natural (s : string) : option (Z * string) :=
  match s with
  | String c s' =>
      match digit_of c with
      | Some 0%Z => if starts_fraction s' then None else Some (0%Z, s')
      | Some d => let (n, rest) := digits d s' in
                  if starts_fraction rest then None else Some (n, rest)
      | None => None
      end
  | EmptyString => None
  end.

(** The text of a string literal after its opening quote. *)
Fixpoint string_body (s : string) : option (string * string) :=
  match s with
  | EmptyString => None
  | String c s' =>
      let n := N_of_ascii c in
      if (n =? 34)%N then Some (EmptyString, s')
      else if (n <? 32)%N then None
      else if (n =? 92)%N then
        match s' with
        | String e s'' =>
            let plain (x : nat) (rest : string) :=
              match string_body rest with
              | Some (t, r) => Some (String (ascii_of_nat x) t, r)
              | None => None
              end in
            match e with
            | "n"%char => plain 10 s''
            | "r"%char => plain 13 s''
            | "t"%char => plain 9 s''
            | "b"%char => plain 8 s''
            | "f"%char => plain 12 s''
            | "/"%char => plain 47 s''
            | "\"%char => plain 92 s''
            | "u"%char =>
                match s'' with
                | String "0" (String "0" (String h (String l rest))) =>
                    match hex_of h, hex_of l, string_body rest with
                    | Some x, Some y, Some (t, r) =>
                        Some (String (ascii_of_N (16 * x + y)) t, r)
                    | _, _, _ => None
                    end
                | _ => None
                end
            | _ => if (N_of_ascii e =? 34)%N then plain 34 s'' else None
            end
        | EmptyString => None
        end
      else match string_body s' with
           | Some (t, r) => Some (String c t, r)
           | None => None
           end
  end.

(** [d[k] = v] on the insertion-ordered fields of a [dict]. *)
Fixpoint dict_set (k : string) (v : json) (m : list (string * json))
  : list (string * json) :=
  match m with
  | [] => [(k, v)]
  | (k', v') :: m' =>
      if String.eqb k k' then (k, v) :: m' else (k', v') :: dict_set k v m'
  end.

Section Containers.

Variable value : string -> option (json * string).

(** After an element: [,] and the next one, or []]. *)
Fixpoint elements (n : nat) (acc : list json) (s : string)
  : option (json * string) :=
  match n with
  | O => None
  | S n' =>
      match skip_ws s with
      | String "]" rest => Some (JArr (rev acc), rest)
      | String "," rest =>
          match value rest with
          | Some (v, rest') => elements n' (v :: acc) rest'
          | None => None
          end
      | _ => None
      end
  end.

Definition member (s : string) : option (string * json * string) :=
  match skip_ws s with
  | String q rest =>
      if (N_of_ascii q =? 34)%N then
        match string_body rest with
        | Some (k, rest') =>
            match skip_ws rest' with
            | String ":" rest'' =>
                match value rest'' with
                | Some (v, r) => Some (k, v, r)
                | None => None
                end
            | _ => None
            end
        | None => None
        end
      else None
  | EmptyString => None
  end.

Fixpoint members (n : nat) (acc : list (string * json)) (s : string)
  : option (json * string) :=
  match n with
  | O => None
  | S n' =>
      match skip_ws s with
      | String "}" rest => Some (JObj acc, rest)
      | String "," rest =>
          match member rest with
          | Some (k, v, rest') => members n' (dict_set k v acc) rest'
          | None => None
          end
      | _ => None
      end
  end.

End Containers.

Definition literal (word : string) (v : json) (s : string)
  : option (json * string) :=
  if String.prefix word s
  then Some (v, substring (String.length word) (String.length s - String.length word) s)
  else None.

Fixpoint value (fuel : nat) (s : string) : option (json * string) :=
  match fuel with
  | O => None
  | S fuel' =>
      let s := skip_ws s in
      match s with
      | EmptyString => None
      | String c rest =>
          match c with
          | "n"%char => literal "null" JNull s
          | "t"%char => literal "true" (JBool true) s
          | "f"%char => literal "false" (JBool false) s
          | "N"%char => literal "NaN" (JFloat FNan) s
          | "I"%char => literal "Infinity" (JFloat FInf) s
          | "["%char =>
              match skip_ws rest with
              | String "]" rest' => Some (JArr [], rest')
              | _ =>
                  match value fuel' rest with
                  | Some (v, rest') =>
                      elements (value fuel') (String.length rest') [v] rest'
                  | None => None
                  end
              end
          | "{"%char =>
              match skip_ws rest with
              | String "}" rest' => Some (JObj [], rest')
              | _ =>
                  match member (value fuel') rest with
                  | Some (k, v, rest') =>
                      members (value fuel') (String.length rest') [(k, v)] rest'
                  | None => None
                  end
              end
          | "-"%char =>
              if String.prefix "Infinity" rest
              then literal "-Infinity" (JFloat FNegInf) s
              else match natural rest with
                   | Some (n, rest') => Some (JInt (- n), rest')
                   | None => None
                   end
          | _ =>
              if (N_of_ascii c =? 34)%N then
                match string_body rest with
                | Some (t, rest') => Some (JStr t, rest')
                | None => None
                end
              else match natural s with
                   | Some (n, rest') => Some (JInt n, rest')
                   | None => None
                   end
          end
      end
  end.

(** [json.loads] on text: one value, with nothing but blanks after. *)
Definition loads (s : string) : option json :=
  match value (S (String.length s)) s with
  | Some (v, rest) =>
      match skip_ws rest with
      | EmptyString => Some v
      | String _ _ => None
      end
  | None => None
  end.

(** [bytes.decode()]: strict UTF-8, for code points below 256. *)
Fixpoint decode (b : list byte) : option string :=
  match b with
  | [] => Some EmptyString
  | x :: b' =>
      let n := Byte.to_N x in
      if (n <? 128)%N then
        match decode b' with
        | Some t => Some (String (ascii_of_byte x) t)
        | None => None
        end
      else if ((n =? 194) || (n =? 195))%N then
        match b' with
        | y :: b'' =>
            let m := Byte.to_N y in
            if ((128 <=? m) && (m <=? 191))%N then
              match decode b'' with
              | Some t => Some (String (ascii_of_N (64 * (n - 192) + (m - 128))) t)
              | None => None
              end
            else None
        | [] => None
        end
      else None
  end.

Definition lib : pylib :=
  {| bytes_decode := decode;
     loads_bytes := fun b => match decode b with
                             | Some s => loads s
                             | None => None
                             end;
     loads_str := loads |}.

End Decoder.

(** ** Flows, as the table shows them *)

Record flow : Type := {
  flow_id : option string;
  flow_name : option string;
  flow_state : option string;
  flow_trigger : option string
}.

(** A field that is absent, or present and text. *)
Definition text_field (k : string) (m : list (string * json)) : option (option string) :=
  match lookup k m with
  | None => Some None
  | Some (JStr s) => Some (Some s)
  | Some _ => None
  end.

(** The flow an element stands for: an object whose [id], [displayName],
    [state] and [triggerType], where present, are text. *)
Definition as_flow (v : json) : option flow :=
  match v with
  | JObj m =>
      match text_field "id" m, text_field "displayName" m,
            text_field "state" m, text_field "triggerType" m with
      | Some i, Some n, Some s, Some t =>
          Some {| flow_id := i; flow_name := n; flow_state := s; flow_trigger := t |}
      | _, _, _, _ => None
      end
  | _ => None
  end.

Definition shown (x : option string) : string :=
  match x with
  | Some s => s
  | None => "?"
  end.

(** The columns of a table row after the id. *)
Definition columns (f : flow) : string :=
  "  | " ++ ljust 10 (shown (flow_state f)) ++ " | "
         ++ ljust 15 (shown (flow_trigger f)) ++ " | " ++ shown (flow_name f).

Definition row (f : flow) : string :=
  "  " ++ take 12 (shown (flow_id f)) ++ ".." ++ columns f.

Definition header (n : nat) : string :=
  "Total flows: " ++ str_of_int (Z.of_nat n) ++ newline ++ newline.

(** The layout of a row: the id column is the id cut to its first 12
    characters; the state and the trigger come first in their columns,
    which are 10 and 15 characters wide, or wider when the text is. *)
Definition laid_out (f : flow) : Prop :=
  String.prefix (take 12 (shown (flow_id f))) (shown (flow_id f)) = true /\
  String.length (take 12 (shown (flow_id f)))
    = Nat.min 12 (String.length (shown (flow_id f))) /\
  String.prefix (shown (flow_state f)) (ljust 10 (shown (flow_state f))) = true /\
  String.length (ljust 10 (shown (flow_state f)))
    = Nat.max 10 (String.length (shown (flow_state f))) /\
  String.prefix (shown (flow_trigger f)) (ljust 15 (shown (flow_trigger f))) = true /\
  String.length (ljust 15 (shown (flow_trigger f)))
    = Nat.max 15 (String.length (shown (flow_trigger f))).

(** Left-padded, as the specification words the state and trigger
    columns: the fill goes before the text. *)
Definition rjust (width : nat) (s : string) : string :=
  spaces (width - String.length s) ++ s.

(** ** Concrete runs *)

(** A world whose environment holds [token] under the credential
    variable and nothing else, and whose server answers [r]. *)
Definition world_of (token : option string) (r : reply) : world :=
  {| environ := fun name => if String.eqb name token_var then token else None;
     server := fun _ => r |}.

Definition with_token (r : reply) : world := world_of (Some "secret") r.

Definition without_token (r : reply) : world := world_of None r.

(** The envelope a server wraps [inner] in: the payload travels as text. *)
Definition envelope (inner : json) : list byte :=
  str_encode (dumps (JObj [("jsonrpc", JStr "2.0"); ("id", JInt 1);
                           ("result", JObj [("content",
                              JArr [JObj [("type", JStr "text");
                                          ("text", JStr (dumps inner))]])])])).

Definition daily_sync : json :=
  JObj [("id", JStr "abcdefghijklmnop"); ("displayName", JStr "Daily Sync");
        ("state", JStr "active"); ("triggerType", JStr "schedule")].

Definition quota_exceeded : json := JObj [("error", JStr "quota exceeded")].

Definition foo_bar : json := JObj [("foo", JStr "bar")].

Definition the_call : event := Urlopen (build_request "secret") 60.

Definition no_such_method : json :=
  JObj [("code", JInt (-32601)); ("message", JStr "no such method")].

Definition quote (s : string) : string := dquote ++ s ++ dquote.

(** An envelope with an [error] member next to a well-formed [result]. *)
Definition error_and_result : json :=
  JObj [("error", JStr "busy");
        ("result", JObj [("content",
           JArr [JObj [("text", JStr (dumps (JArr [daily_sync])))]])])].

Definition short_flow : json := JObj [("id", JStr "abc"); ("state", JStr "off")].

Definition sample_flows : list json := [daily_sync; short_flow; JObj []].

Definition sample_view : list flow :=
  [ {| flow_id := Some "abcdefghijklmnop"; flow_name := Some "Daily Sync";
       flow_state := Some "active"; flow_trigger := Some "schedule" |};
    {| flow_id := Some "abc"; flow_name := None;
       flow_state := Some "off"; flow_trigger := None |};
    {| flow_id := None; flow_name := None; flow_state := None; flow_trigger := None |} ].

(** ** Properties of processes *)

(** A process that, when it stops, never stops with status 0. *)
Definition stops_nonzero {A : Type} (m : proc A) : Prop :=
  forall t o, m = (t, Stop o) -> o <> Exit 0.

(** A process whose every effect is a print. *)
Definition only_prints {A : Type} (m : proc A) : Prop :=
  Forall (fun e => is_print e = true) (fst m).

(** What follows the call, as a function of the reply alone. *)
Definition after_call (py : pylib) (r : reply) : list event * outcome :=
  finish (inner <- (resp <- handle_reply py r ;;
                    check_envelope resp ;;
                    extract_inner py resp) ;;
          persist inner ;;
          present inner).

Create HintDb proc.

(** Goes through a process bind by bind, [split_bind] being the rule for
    [bind]; the leaves are left to the hints of [proc]. *)
Ltac by_parts split_bind :=
  repeat first
    [ split_bind; [|intros ?]
    | solve [auto with proc]
    | match goal with
      | |- _ (if ?b then _ else _) => destruct b
      | |- _ (match ?x with _ => _ end) => destruct x
      end ].

(** ** More to say about runs and values *)

(** The ways a run fails: [exit(1)], or an exception nobody catches. *)
Inductive failed : outcome -> Prop :=
| failed_exit : failed (Exit 1)
| failed_uncaught (e : exn) : failed (Uncaught e).

Inductive crashed : outcome -> Prop :=
| crashed_with (e : exn) : crashed (Uncaught e).

(** A process that stops, when it does, with an outcome in [P]. *)
Definition stops_within {A : Type} (P : outcome -> Prop) (m : proc A) : Prop :=
  forall t o, m = (t, Stop o) -> P o.

(** Lines 23-34, given what the call came to: from the reply to the
    inner payload. *)
Definition decode_reply (py : pylib) (r : reply) : proc json :=
  resp <- handle_reply py r ;;
  check_envelope resp ;;
  extract_inner py resp.

Definition is_text (v : json) : bool :=
  match v with
  | JStr _ => true
  | _ => false
  end.

(** [fl.get(k, "?")] on the fields of a [dict]. *)
Definition field_or_mark (m : list (string * json)) (k : string) : json :=
  match lookup k m with
  | Some x => x
  | None => JStr "?"
  end.

(** Characters from [' '] to ['~'], and the line feed. *)
Definition printable (c : ascii) : bool :=
  let n := N_of_ascii c in ((32 <=? n) && (n <=? 126))%N.

Definition printable_or_newline (c : ascii) : bool :=
  printable c || (N_of_ascii c =? 10)%N.

Fixpoint all_chars (p : ascii -> bool) (s : string) : bool :=
  match s with
  | EmptyString => true
  | String c s' => p c && all_chars p s'
  end.

(** The text kept for each finite [float] is printable ASCII, as the
    text of [float.__repr__] is. *)
Fixpoint reprs_printable (v : json) : bool :=
  match v with
  | JFloat (FFinite r) => all_chars printable r
  | JArr l => forallb reprs_printable l
  | JObj m => forallb (fun kv => reprs_printable (snd kv)) m
  | _ => true
  end.

(** Induction on values that reaches the elements of arrays and the
    members of objects. *)
Section JsonInduction.

Variable P : json -> Prop.
Hypothesis P_null : P JNull.
Hypothesis P_bool : forall b, P (JBool b).
Hypothesis P_int : forall n, P (JInt n).
Hypothesis P_float : forall f, P (JFloat f).
Hypothesis P_str : forall s, P (JStr s).
Hypothesis P_arr : forall l, Forall P l -> P (JArr l).
Hypothesis P_obj : forall m, Forall (fun kv => P (snd kv)) m -> P (JObj m).

Fixpoint json_nested_ind (v : json) : P v :=
  match v with
  | JNull => P_null
  | JBool b => P_bool b
  | JInt n => P_int n
  | JFloat f => P_float f
  | JStr s => P_str s
  | JArr l =>
      P_arr l ((fix all (l : list json) : Forall P l :=
                  match l with
                  | [] => Forall_nil P
                  | x :: l' => Forall_cons x (json_nested_ind x) (all l')
                  end) l)
  | JObj m =>
      P_obj m ((fix all (m : list (string * json))
                  : Forall (fun kv => P (snd kv)) m :=
                  match m with
                  | [] => Forall_nil _
                  | kv :: m' =>
                      Forall_cons (P := fun kv => P (snd kv)) kv
                        (json_nested_ind (snd kv)) (all m')
                  end) m)
  end.

End JsonInduction.

(** An envelope whose content list is empty, and one whose text is an
    object instead of text. *)
Definition empty_content : json :=
  JObj [("result", JObj [("content", JArr [])])].

Definition nested_text : json :=
  JObj [("result", JObj [("content", JArr [JObj [("text", foo_bar)]])])].

Definition unnamed_flow : json :=
  JObj [("id", JStr "abc"); ("displayName", JNull); ("state", JStr "on")].

Definition stateless_flow : json :=
  JObj [("id", JStr "abc"); ("state", JNull)].

Definition mixed_list : list json := [daily_sync; JInt 5; short_flow].

Definition daily_view : flow :=
  {| flow_id := Some "abcdefghijklmnop"; flow_name := Some "Daily Sync";
     flow_state := Some "active"; flow_trigger := Some "schedule" |}.

Definition accented : json :=
  JArr [JFloat (FFinite "1.5"); JStr ("caf" ++ chr 233); JObj [("k", JNull)]].

(** An error body that is no UTF-8 text. *)
Definition garbled : list byte := [Byte.xff; Byte.xfe].

(** An envelope with other texts around the one at
    [result.content[0].text]: a [text] member at the top, one beside
    [content], and a second element in [content]. *)
Definition decoy_envelope : json :=
  JObj [("jsonrpc", JStr "2.0"); ("id", JInt 1);
        ("text", JStr (dumps (JStr "top")));
        ("result",
         JObj [("text", JStr (dumps (JStr "beside")));
               ("content",
                JArr [JObj [("type", JStr "text");
                            ("text", JStr (dumps (JArr [short_flow])))];
                      JObj [("type", JStr "text");
                            ("text", JStr (dumps (JStr "second")))]])])].

(** [[{"id": "abc", "state": "off"}]] as [json.dump(..., indent=2)]
    writes it, character by character. *)
Definition short_flow_file : string :=
  "[" ++ newline
  ++ "  {" ++ newline
  ++ "    " ++ quote "id" ++ ": " ++ quote "abc" ++ "," ++ newline
  ++ "    " ++ quote "state" ++ ": " ++ quote "off" ++ newline
  ++ "  }" ++ newline
  ++ "]".

(** Takes a goal about a concatenation apart, [split_append] being the
    rule for one [++]. *)
Ltac at_each_append split_append :=
  repeat match goal with
    | |- _ (_ ++ _) = true => split_append
    end.

(** ** Lemmas on text *)

Lemma take_length (n : nat) (s : string) :
  String.length (take n s) = Nat.min n (String.length s).
Proof.
  revert s; induction n as [|n IH]; intros [|c s]; simpl; auto.
Qed.

Lemma take_all (n : nat) (s : string) :
  String.length s <= n -> take n s = s.
Proof.
  revert s; induction n as [|n IH]; intros [|c s]; simpl; intros H;
    try reflexivity; try lia.
  f_equal; apply IH; lia.
Qed.

Lemma take_prefix (n : nat) (s : string) :
  String.prefix (take n s) s = true.
Proof.
  revert s; induction n as [|n IH]; intros [|c s]; simpl; auto.
  destruct (ascii_dec c c) as [_|ne]; [apply IH | now elim ne].
Qed.

Lemma append_length (s1 s2 : string) :
  String.length (s1 ++ s2) = String.length s1 + String.length s2.
Proof.
  induction s1 as [|c s1 IH]; simpl; auto.
Qed.

Lemma append_assoc (s1 s2 s3 : string) : (s1 ++ s2) ++ s3 = s1 ++ s2 ++ s3.
Proof.
  induction s1 as [|c s1 IH]; simpl; [reflexivity | now rewrite IH].
Qed.

Lemma spaces_length (n : nat) : String.length (spaces n) = n.
Proof.
  induction n; simpl; auto.
Qed.

Lemma ljust_length (width : nat) (s : string) :
  String.length (ljust width s) = Nat.max width (String.length s).
Proof.
  unfold ljust; rewrite append_length, spaces_length; lia.
Qed.

Lemma prefix_append (s t : string) : String.prefix s (s ++ t) = true.
Proof.
  induction s as [|c s IH]; simpl.
  - now destruct t.
  - destruct (ascii_dec c c) as [_|ne]; [exact IH | now elim ne].
Qed.

Lemma ljust_prefix (width : nat) (s : string) :
  String.prefix s (ljust width s) = true.
Proof.
  apply prefix_append.
Qed.

(** ** The encoder on small values *)

Example dumps_indent_nested :
  dumps_indent 2 (JObj [("a", JArr [JInt 1; JInt (-2)]); ("b", JObj []);
                        ("c", JObj [("d", JNull)])])
  = "{" ++ newline
    ++ "  " ++ quote "a" ++ ": [" ++ newline
    ++ "    1," ++ newline
    ++ "    -2" ++ newline
    ++ "  ]," ++ newline
    ++ "  " ++ quote "b" ++ ": {}," ++ newline
    ++ "  " ++ quote "c" ++ ": {" ++ newline
    ++ "    " ++ quote "d" ++ ": null" ++ newline
    ++ "  }" ++ newline
    ++ "}".
Proof.
  reflexivity.
Qed.

Example dumps_payload :
  dumps payload
  = "{" ++ quote "jsonrpc" ++ ": " ++ quote "2.0" ++ ", " ++ quote "id" ++ ": 1, "
        ++ quote "method" ++ ": " ++ quote "tools/list" ++ ", "
        ++ quote "params" ++ ": {}}".
Proof.
  reflexivity.
Qed.

Example dumps_escapes :
  dumps (JStr ("a" ++ dquote ++ backslash ++ newline ++ chr 233 ++ chr 127))
  = quote ("a" ++ backslash ++ dquote ++ backslash ++ backslash ++ backslash ++ "n"
               ++ backslash ++ "u00e9" ++ backslash ++ "u007f").
Proof.
  reflexivity.
Qed.

Example str_of_int_examples :
  str_of_int 0 = "0" /\ str_of_int 404 = "404" /\ str_of_int (-32601) = "-32601".
Proof.
  repeat split.
Qed.

(** The decoder reads back what the encoder writes, on the envelope of
    the sample flow. *)
Example loads_dumps_daily_sync :
  Decoder.loads (dumps_indent 2 (JArr [daily_sync; JObj []; JArr []]))
    = Some (JArr [daily_sync; JObj []; JArr []]) /\
  loads_bytes Decoder.lib (envelope daily_sync)
    = Some (JObj [("jsonrpc", JStr "2.0"); ("id", JInt 1);
                  ("result", JObj [("content",
                     JArr [JObj [("type", JStr "text");
                                 ("text", JStr (dumps daily_sync))]])])]).
Proof.
  split; vm_compute; reflexivity.
Qed.

(** ** Lemmas on processes *)

Lemma bind_next_inv {A B : Type} (m : proc A) (k : A -> proc B) t b :
  bind m k = (t, Next b) ->
  exists t1 a t2, m = (t1, Next a) /\ k a = (t2, Next b) /\ t = (t1 ++ t2)%list.
Proof.
  destruct m as [t1 [a|o]]; simpl; [|discriminate].
  destruct (k a) as [t2 r] eqn:E; intros H; inversion H; subst.
  now exists t1, a, t2.
Qed.

Lemma stops_nonzero_bind {A B : Type} (m : proc A) (k : A -> proc B) :
  stops_nonzero m -> (forall a, stops_nonzero (k a)) -> stops_nonzero (bind m k).
Proof.
  intros Hm Hk t o; destruct m as [t1 [a|o1]]; simpl.
  - destruct (k a) as [t2 r] eqn:E; intros H; inversion H; subst.
    eapply Hk; eauto.
  - intros H; inversion H; subst; eapply Hm; eauto.
Qed.

Lemma stops_nonzero_lift {A : Type} (r : result A) : stops_nonzero (lift r).
Proof.
  intros t o; destruct r; simpl; unfold ret, raise; intros H; inversion H.
  discriminate.
Qed.

Lemma stops_nonzero_lift_opt {A : Type} e (r : option A) :
  stops_nonzero (lift_opt e r).
Proof.
  intros t o; destruct r; simpl; unfold ret, raise; intros H; inversion H.
  discriminate.
Qed.

Lemma stops_nonzero_emit e : stops_nonzero (emit e).
Proof.
  intros t o H; inversion H.
Qed.

Lemma stops_nonzero_print args : stops_nonzero (print args).
Proof.
  apply stops_nonzero_emit.
Qed.

Lemma stops_nonzero_ret {A : Type} (a : A) : stops_nonzero (ret a).
Proof.
  intros t o H; inversion H.
Qed.

Lemma stops_nonzero_exit1 {A : Type} : stops_nonzero (@exit A 1).
Proof.
  intros t o H; inversion H; discriminate.
Qed.

Lemma stops_nonzero_raise {A : Type} e : stops_nonzero (@raise A e).
Proof.
  intros t o H; inversion H; discriminate.
Qed.

#[local] Hint Resolve stops_nonzero_lift stops_nonzero_lift_opt stops_nonzero_emit
  stops_nonzero_print stops_nonzero_ret stops_nonzero_exit1 stops_nonzero_raise : proc.

Lemma only_prints_bind {A B : Type} (m : proc A) (k : A -> proc B) :
  only_prints m -> (forall a, only_prints (k a)) -> only_prints (bind m k).
Proof.
  unfold only_prints; intros Hm Hk; destruct m as [t1 [a|o]]; simpl in *; auto.
  specialize (Hk a); destruct (k a) as [t2 r]; simpl in *.
  apply Forall_app; auto.
Qed.

Lemma only_prints_lift {A : Type} (r : result A) : only_prints (lift r).
Proof.
  destruct r; constructor.
Qed.

Lemma only_prints_print args : only_prints (print args).
Proof.
  repeat constructor.
Qed.

Lemma only_prints_ret {A : Type} (a : A) : only_prints (ret a).
Proof.
  constructor.
Qed.

#[local] Hint Resolve only_prints_lift only_prints_print only_prints_ret : proc.

(** ** The run, step by step *)

Section Run.

Variable py : pylib.

Lemma acquire_token_set (w : world) (token : string) :
  environ w token_var = Some token -> truthy token = true ->
  acquire_token w = ([], Next token).
Proof.
  unfold acquire_token, environ_get; intros -> ->; reflexivity.
Qed.

Lemma acquire_token_unset (w : world) :
  environ w token_var = None \/ environ w token_var = Some EmptyString ->
  acquire_token w = ([Print ("NO TOKEN SET" ++ newline)], Stop (Exit 1)).
Proof.
  unfold acquire_token, environ_get; intros [-> | ->]; reflexivity.
Qed.

(** With a credential the run is the call followed by whatever the
    reply leads to. *)
Lemma fetch_with_token (w : world) (token : string) :
  environ w token_var = Some token -> truthy token = true ->
  fetch py w =
    (emit (Urlopen (build_request token) 60) ;;
     resp <- handle_reply py (server w (build_request token)) ;;
     check_envelope resp ;;
     extract_inner py resp).
Proof.
  intros He Ht; unfold fetch.
  rewrite (acquire_token_set w token He Ht); unfold call_server; simpl.
  destruct (handle_reply py (server w (build_request token))) as [t [resp|o]];
    simpl; [|reflexivity].
  now destruct (check_envelope resp ;; extract_inner py resp).
Qed.

(** The run of an envelope that carries an [error] member. *)
Lemma envelope_error_run (w : world) token raw m err :
  environ w token_var = Some token -> truthy token = true ->
  server w (build_request token) = Body raw ->
  loads_bytes py raw = Some (JObj m) ->
  lookup "error" m = Some err ->
  main py w =
    ([Urlopen (build_request token) 60;
      Print ("JSON-RPC ERROR: " ++ dumps_indent 2 err ++ newline)],
     Exit 1).
Proof.
  intros He Ht Hs Hl Hm; unfold main, script.
  rewrite (fetch_with_token w token He Ht), Hs; simpl.
  rewrite Hl; simpl; unfold check_envelope, contains, getitem, has_key.
  rewrite Hm; reflexivity.
Qed.

(** The run that gets as far as an inner payload: a credential, one
    call, an envelope without [error], and the text under
    [result.content[0].text] decoded once more. *)
Lemma fetch_next_inv (w : world) t inner :
  fetch py w = (t, Next inner) ->
  exists token raw resp text,
    environ w token_var = Some token /\ truthy token = true /\
    server w (build_request token) = Body raw /\
    loads_bytes py raw = Some resp /\
    contains "error" resp = Ok false /\
    result_text resp = Ok (JStr text) /\
    loads_str py text = Some inner /\
    t = [Urlopen (build_request token) 60].
Proof.
  unfold fetch; intros H.
  apply bind_next_inv in H as (t1 & token & t2 & Ha & H & ->).
  unfold acquire_token, environ_get in Ha.
  destruct (environ w token_var) as [v|] eqn:He; simpl in Ha;
    [|discriminate].
  destruct (truthy v) eqn:Ht; simpl in Ha; [|discriminate].
  inversion Ha; subst; clear Ha.
  apply bind_next_inv in H as (t3 & resp & t4 & Hc & H & ->).
  unfold call_server in Hc.
  apply bind_next_inv in Hc as (t5 & [] & t6 & He' & Hc & ->).
  inversion He'; subst; clear He'.
  destruct (server w (build_request token)) as [raw| |] eqn:Hs; simpl in Hc.
  - destruct (loads_bytes py raw) as [resp'|] eqn:Hl; simpl in Hc;
      [|discriminate].
    inversion Hc; subst; clear Hc.
    apply bind_next_inv in H as (t7 & [] & t8 & Hk & H & ->).
    unfold check_envelope in Hk.
    apply bind_next_inv in Hk as (t9 & b & t10 & Hb & Hk & ->).
    destruct (contains "error" resp) as [b'|] eqn:Hin; simpl in Hb;
      [|discriminate].
    inversion Hb; subst; clear Hb.
    destruct b.
    + apply bind_next_inv in Hk as (? & ? & ? & _ & Hk & _).
      apply bind_next_inv in Hk as (? & ? & ? & _ & Hk & _).
      discriminate.
    + inversion Hk; subst; clear Hk.
      unfold extract_inner in H.
      apply bind_next_inv in H as (t11 & text & t12 & Hx & H & ->).
      destruct (result_text resp) as [text'|] eqn:Hr; simpl in Hx;
        [|discriminate].
      inversion Hx; subst; clear Hx.
      destruct text; simpl in H; try discriminate.
      destruct (loads_str py s) as [v|] eqn:Hv; simpl in H; [|discriminate].
      inversion H; subst; clear H.
      exists token, raw, resp, s; repeat split; auto.
  - destruct (bytes_decode py body); simpl in Hc; discriminate.
  - discriminate.
Qed.

(** And the other way round: those conditions are all it takes. *)
Lemma fetch_reaches_inner (w : world) token raw resp text inner :
  environ w token_var = Some token -> truthy token = true ->
  server w (build_request token) = Body raw ->
  loads_bytes py raw = Some resp ->
  contains "error" resp = Ok false ->
  result_text resp = Ok (JStr text) ->
  loads_str py text = Some inner ->
  fetch py w = ([Urlopen (build_request token) 60], Next inner).
Proof.
  intros He Ht Hs Hl Hc Hr Hi.
  rewrite (fetch_with_token w token He Ht), Hs; simpl.
  rewrite Hl; simpl; unfold check_envelope, extract_inner.
  rewrite Hc, Hr; simpl; rewrite Hi; reflexivity.
Qed.

Lemma fetch_stops_nonzero (w : world) : stops_nonzero (fetch py w).
Proof.
  unfold fetch, acquire_token, call_server, handle_reply, check_envelope,
    extract_inner, json_loads.
  by_parts ltac:(apply stops_nonzero_bind).
Qed.

End Run.

Lemma print_flow_stops_nonzero (fl : json) : stops_nonzero (print_flow fl).
Proof.
  unfold print_flow; by_parts ltac:(apply stops_nonzero_bind).
Qed.

Lemma for_each_stops_nonzero {A : Type} (l : list A) (body : A -> proc unit) :
  (forall x, stops_nonzero (body x)) -> stops_nonzero (for_each l body).
Proof.
  intros Hb; induction l as [|x l IH]; simpl.
  - apply stops_nonzero_ret.
  - apply stops_nonzero_bind; auto.
Qed.

Lemma present_stops_nonzero (inner : json) : stops_nonzero (present inner).
Proof.
  unfold present; destruct inner;
    try (apply stops_nonzero_bind;
         [auto with proc
         |intros _; apply for_each_stops_nonzero, print_flow_stops_nonzero]);
    by_parts ltac:(apply stops_nonzero_bind).
Qed.

Lemma print_flow_only_prints (fl : json) : only_prints (print_flow fl).
Proof.
  unfold print_flow; by_parts ltac:(apply only_prints_bind).
Qed.

Lemma for_each_only_prints {A : Type} (l : list A) (body : A -> proc unit) :
  (forall x, only_prints (body x)) -> only_prints (for_each l body).
Proof.
  intros Hb; induction l as [|x l IH]; simpl.
  - apply only_prints_ret.
  - apply only_prints_bind; auto.
Qed.

Lemma present_only_prints (inner : json) : only_prints (present inner).
Proof.
  unfold present; destruct inner;
    try (apply only_prints_bind;
         [auto with proc
         |intros _; apply for_each_only_prints, print_flow_only_prints]);
    by_parts ltac:(apply only_prints_bind).
Qed.

(** Prints leave the file as it was. *)
Lemma snapshot_after_prints (old : option string) (t : list event) :
  Forall (fun e => is_print e = true) t -> snapshot_after old t = old.
Proof.
  induction 1 as [|e t He _ IH]; simpl; auto.
  destruct e; simpl in He; try discriminate; exact IH.
Qed.

Section Presentation.

Variable py : pylib.

(** From the inner payload on: the write, then the presentation. *)
Lemma main_of_fetch (w : world) t0 inner :
  fetch py w = (t0, Next inner) ->
  main py w =
    finish (let (t1, r) := present inner in
            ((t0 ++ WriteFile snapshot_path (dumps_indent 2 inner) :: t1)%list, r)).
Proof.
  intros H; unfold main, script; rewrite H; simpl.
  now destruct (present inner).
Qed.

(** A run ends with status 0 only through a presentation that ran to
    its end. *)
Lemma main_exit0_inv (w : world) t :
  main py w = (t, Exit 0) ->
  exists t0 inner t1,
    fetch py w = (t0, Next inner) /\ present inner = (t1, Next tt) /\
    t = (t0 ++ WriteFile snapshot_path (dumps_indent 2 inner) :: t1)%list.
Proof.
  unfold main, script; intros H.
  destruct (fetch py w) as [t0 [inner|o]] eqn:Hf; simpl in H.
  - destruct (present inner) as [t1 [[]|o]] eqn:Hp; simpl in H.
    + inversion H; subst; now exists t0, inner, t1.
    + inversion H; subst.
      now elim (present_stops_nonzero inner t1 (Exit 0) Hp).
  - inversion H; subst.
    now elim (fetch_stops_nonzero py w t (Exit 0) Hf).
Qed.

End Presentation.

(** The loop prints the row of each flow. *)
Lemma print_flow_row (v : json) (f : flow) :
  as_flow v = Some f -> print_flow v = ([Print (row f ++ newline)], Next tt).
Proof.
  destruct v as [| | | | |?|m]; simpl; try discriminate.
  unfold text_field, print_flow, dict_get.
  destruct (lookup "id" m) as [[]|]; try discriminate;
    destruct (lookup "displayName" m) as [[]|]; try discriminate;
    destruct (lookup "state" m) as [[]|]; try discriminate;
    destruct (lookup "triggerType" m) as [[]|]; try discriminate;
    intros H; inversion H; subst; clear H; reflexivity.
Qed.

Lemma for_each_rows (items : list json) (fs : list flow) :
  Forall2 (fun v f => as_flow v = Some f) items fs ->
  for_each items print_flow = (map (fun f => Print (row f ++ newline)) fs, Next tt).
Proof.
  induction 1 as [|v f items fs Hv _ IH]; simpl; [reflexivity|].
  rewrite (print_flow_row v f Hv), IH; reflexivity.
Qed.

Lemma snapshot_after_written (t : list event) (old : option string) :
  snapshot_after old t =
    match snapshot_written t with
    | Some c => Some c
    | None => old
    end.
Proof.
  revert old; induction t as [|e t IH]; intros old; simpl; [reflexivity|].
  destruct e; auto.
  rewrite IH; destruct (snapshot_written t); [reflexivity|].
  now destruct (path =? snapshot_path)%string.
Qed.

Lemma main_with_token (py : pylib) (w : world) (token : string) :
  environ w token_var = Some token -> truthy token = true ->
  main py w =
    (Urlopen (build_request token) 60
       :: fst (after_call py (server w (build_request token))),
     snd (after_call py (server w (build_request token)))).
Proof.
  intros He Ht; unfold main, script, after_call.
  rewrite (fetch_with_token py w token He Ht).
  destruct (resp <- handle_reply py (server w (build_request token)) ;;
            check_envelope resp ;; extract_inner py resp) as [t [inner|o]];
    simpl; [|reflexivity].
  now destruct (present inner) as [t' [[]|o]].
Qed.

Lemma present_error (m : list (string * json)) (err : json) :
  lookup "error" m = Some err ->
  present (JObj m) = ([Print ("ERROR: " ++ dumps_indent 2 err ++ newline)], Next tt).
Proof.
  intros Hm; unfold present, contains, getitem, has_key; simpl.
  rewrite Hm; reflexivity.
Qed.

Lemma present_fallback (inner : json) :
  is_list inner = false -> has_error_field inner = false ->
  present inner = ([Print (take 2000 (dumps_indent 2 inner) ++ newline)], Next tt).
Proof.
  destruct inner; simpl; intros Hl He; try discriminate; try reflexivity.
  unfold present, contains; simpl; rewrite He; reflexivity.
Qed.

Lemma present_list (items : list json) (fs : list flow) :
  Forall2 (fun v f => as_flow v = Some f) items fs ->
  present (JArr items) =
    (Print (header (List.length items)) :: map (fun f => Print (row f ++ newline)) fs,
     Next tt).
Proof.
  intros H; unfold present; rewrite (for_each_rows items fs H); simpl.
  unfold header; now rewrite !append_assoc.
Qed.

(** ** The properties of the specification *)

Section Properties.

Variable py : pylib.

(** C1 (amended).  When the inner payload is an object with an [error]
    member, the script first writes the payload to the snapshot file,
    then prints [ERROR:] and that member pretty-printed with an indent
    of 2, and ends with status 0. *)
Theorem inner_error_reported (w : world) t0 m err :
  fetch py w = (t0, Next (JObj m)) ->
  lookup "error" m = Some err ->
  exists token,
    environ w token_var = Some token /\
    main py w =
      ([Urlopen (build_request token) 60;
        WriteFile snapshot_path (dumps_indent 2 (JObj m));
        Print ("ERROR: " ++ dumps_indent 2 err ++ newline)],
       Exit 0).
Proof.
  intros Hf Hm.
  destruct (fetch_next_inv py w t0 (JObj m) Hf)
    as (token & raw & resp & text & He & _ & _ & _ & _ & _ & _ & ->).
  exists token; split; [exact He|].
  rewrite (main_of_fetch py w _ _ Hf), (present_error m err Hm); reflexivity.
Qed.

(** C2 (amended).  When the inner payload is a list of flows (objects
    whose [id], [displayName], [state] and [triggerType], where present,
    are text), the script prints [Total flows: <count>] and a blank
    line, then one row per element in order: the id cut to its first 12
    characters and followed by [..], the state and the trigger type
    left-aligned and filled with spaces on the right to 10 and 15
    characters, and the display name, [?] standing for a missing field;
    it ends with status 0. *)
Theorem list_prints_table (w : world) t0 items fs :
  fetch py w = (t0, Next (JArr items)) ->
  Forall2 (fun v f => as_flow v = Some f) items fs ->
  main py w =
    ((t0 ++ WriteFile snapshot_path (dumps_indent 2 (JArr items))
         :: Print (header (List.length items))
         :: map (fun f => Print (row f ++ newline)) fs)%list,
     Exit 0) /\
  List.length fs = List.length items /\
  Forall (fun f => laid_out f) fs.
Proof.
  intros Hf Hfs; split; [|split].
  - rewrite (main_of_fetch py w _ _ Hf), (present_list items fs Hfs).
    reflexivity.
  - symmetry; eapply Forall2_length; eauto.
  - apply Forall_forall; intros f _; unfold laid_out.
    rewrite take_length, !ljust_length, take_prefix, !ljust_prefix.
    repeat split.
Qed.

(** C3.  In every run that ends with status 0, the envelope is an
    object whose [result] is an object whose [content] is a list that
    starts with an object whose [text] is text; the snapshot file holds
    the value obtained by decoding that text a second time,
    pretty-printed with an indent of 2; the write replaces whatever the
    file held, and it comes before any presentation output. *)
Theorem snapshot_is_decoded_payload (w : world) t :
  main py w = (t, Exit 0) ->
  exists token raw m r first rest text inner prints,
    environ w token_var = Some token /\
    server w (build_request token) = Body raw /\
    loads_bytes py raw = Some (JObj m) /\
    lookup "result" m = Some (JObj r) /\
    lookup "content" r = Some (JArr (JObj first :: rest)) /\
    lookup "text" first = Some (JStr text) /\
    result_text (JObj m) = Ok (JStr text) /\
    loads_str py text = Some inner /\
    t = Urlopen (build_request token) 60
          :: WriteFile snapshot_path (dumps_indent 2 inner) :: prints /\
    Forall (fun e => is_print e = true) prints /\
    forall old, snapshot_after old t = Some (dumps_indent 2 inner).
Proof.
  intros H.
  destruct (main_exit0_inv py w t H) as (t0 & inner & t1 & Hf & Hp & ->).
  destruct (fetch_next_inv py w t0 inner Hf)
    as (token & raw & resp & text & He & _ & Hs & Hl & _ & Hr & Hi & ->).
  (* The subscripts of line 34 succeed on one shape only. *)
  assert (Hshape : exists m r first rest,
             resp = JObj m /\
             lookup "result" m = Some (JObj r) /\
             lookup "content" r = Some (JArr (JObj first :: rest)) /\
             lookup "text" first = Some (JStr text)).
  { clear - Hr; unfold result_text in Hr.
    destruct resp as [| | | | | |m]; try discriminate.
    cbn [getitem and_then] in Hr.
    destruct (lookup "result" m) as [res|] eqn:Hres; [|discriminate].
    cbn [and_then] in Hr.
    destruct res as [| | | | | |r]; try discriminate.
    cbn [getitem and_then] in Hr.
    destruct (lookup "content" r) as [content|] eqn:Hcon; [|discriminate].
    cbn [and_then] in Hr.
    destruct content as [| | | |s|l|c]; try discriminate.
    - cbn [getindex] in Hr; destruct (String.get 0 s); discriminate.
    - destruct l as [|first rest]; [discriminate|].
      cbn [getindex nth_error and_then] in Hr.
      destruct first as [| | | | | |f]; try discriminate.
      cbn [getitem] in Hr.
      destruct (lookup "text" f) as [x|] eqn:Htext; [|discriminate].
      inversion Hr; subst.
      exists m, r, f, rest; auto. }
  destruct Hshape as (m & r & first & rest & -> & Hres & Hcon & Htext).
  assert (Hprints : Forall (fun e => is_print e = true) t1).
  { pose proof (present_only_prints inner) as Ho.
    unfold only_prints in Ho; now rewrite Hp in Ho. }
  exists token, raw, m, r, first, rest, text, inner, t1; repeat split; auto.
  intros old; cbn [snapshot_after app]; rewrite String.eqb_refl.
  now apply snapshot_after_prints.
Qed.

(** C7.  Two runs that receive the same answer from the server write
    the same content to the snapshot file: what one run writes the other
    writes too, and after either run the file holds exactly that,
    whatever it held before. *)
Theorem snapshot_deterministic (w1 w2 : world) token1 token2 :
  environ w1 token_var = Some token1 -> truthy token1 = true ->
  environ w2 token_var = Some token2 -> truthy token2 = true ->
  server w1 (build_request token1) = server w2 (build_request token2) ->
  snapshot_written (fst (main py w1)) = snapshot_written (fst (main py w2)) /\
  forall c old1 old2,
    snapshot_written (fst (main py w1)) = Some c ->
    snapshot_after old1 (fst (main py w1)) = Some c /\
    snapshot_after old2 (fst (main py w2)) = Some c.
Proof.
  intros He1 Ht1 He2 Ht2 Hs.
  assert (E : snapshot_written (fst (main py w1))
              = snapshot_written (fst (main py w2))).
  { rewrite (main_with_token py w1 token1 He1 Ht1),
      (main_with_token py w2 token2 He2 Ht2), Hs; reflexivity. }
  split; [exact E|].
  intros c old1 old2 Hc; rewrite !snapshot_after_written, <- E, Hc; auto.
Qed.

(** C8.  When the inner payload is neither a list nor an object with an
    [error] member, the script prints the whole payload pretty-printed
    with an indent of 2, cut to its first 2000 characters, and ends with
    status 0. *)
Theorem fallback_dump (w : world) t0 inner :
  fetch py w = (t0, Next inner) ->
  is_list inner = false ->
  has_error_field inner = false ->
  main py w =
    ((t0 ++ [WriteFile snapshot_path (dumps_indent 2 inner);
             Print (take 2000 (dumps_indent 2 inner) ++ newline)])%list,
     Exit 0) /\
  String.length (take 2000 (dumps_indent 2 inner)) <= 2000 /\
  String.prefix (take 2000 (dumps_indent 2 inner)) (dumps_indent 2 inner) = true.
Proof.
  intros Hf Hl He; split; [|split].
  - rewrite (main_of_fetch py w _ _ Hf), (present_fallback inner Hl He).
    reflexivity.
  - rewrite take_length; lia.
  - apply take_prefix.
Qed.

(** C10.  In the table, [..] follows the id column whether or not the
    id was cut: the row of a flow whose id is absent or shorter than 12
    characters shows the whole id (or [?]) followed by [..]. *)
Theorem id_suffix_unconditional (w : world) t0 items fs i f :
  fetch py w = (t0, Next (JArr items)) ->
  Forall2 (fun v f => as_flow v = Some f) items fs ->
  nth_error fs i = Some f ->
  String.length (shown (flow_id f)) < 12 ->
  nth_error (fst (main py w)) (List.length t0 + 2 + i) =
    Some (Print ("  " ++ shown (flow_id f) ++ ".." ++ columns f ++ newline)) /\
  (flow_id f = None ->
   nth_error (fst (main py w)) (List.length t0 + 2 + i) =
     Some (Print ("  ?.." ++ columns f ++ newline))).
Proof.
  intros Hf Hfs Hi Hlen.
  assert (E : nth_error (fst (main py w)) (List.length t0 + 2 + i) =
              Some (Print ("  " ++ shown (flow_id f) ++ ".." ++ columns f ++ newline))).
  { rewrite (main_of_fetch py w _ _ Hf), (present_list items fs Hfs).
    cbn [finish fst].
    rewrite nth_error_app2 by lia.
    replace (List.length t0 + 2 + i - List.length t0) with (S (S i)) by lia.
    cbn [nth_error].
    rewrite (map_nth_error (fun f => Print (row f ++ newline)) i fs Hi).
    unfold row; rewrite (take_all 12 (shown (flow_id f))) by lia.
    now rewrite !append_assoc. }
  split; [exact E|].
  intros Hnone; rewrite E, Hnone; reflexivity.
Qed.

(** C4.  When the credential variable is absent from the environment or
    holds the empty string, the script prints the fixed text
    [NO TOKEN SET] and exits with status 1; it makes no network call and
    leaves the snapshot file as it was. *)
Theorem missing_credential_exits (w : world) :
  environ w token_var = None \/ environ w token_var = Some EmptyString ->
  main py w = ([Print ("NO TOKEN SET" ++ newline)], Exit 1) /\
  network_calls (fst (main py w)) = [] /\
  file_writes (fst (main py w)) = [] /\
  forall old, snapshot_after old (fst (main py w)) = old.
Proof.
  intros H.
  assert (E : main py w = ([Print ("NO TOKEN SET" ++ newline)], Exit 1)).
  { unfold main, script, fetch; rewrite (acquire_token_unset w H); reflexivity. }
  rewrite E; repeat split.
Qed.

(** C6 (amended).  When the server answers with an HTTP error status
    and the body of the error decodes as text, the script prints
    [HTTP <status>: <body>], the body cut to its first 300 characters,
    and exits with status 1. *)
Theorem http_error_reported (w : world) token code body text :
  environ w token_var = Some token -> truthy token = true ->
  server w (build_request token) = HTTPError code body ->
  bytes_decode py body = Some text ->
  main py w =
    ([Urlopen (build_request token) 60;
      Print ("HTTP " ++ str_of_int code ++ ": " ++ take 300 text ++ newline)],
     Exit 1) /\
  String.length (take 300 text) <= 300 /\
  String.prefix (take 300 text) text = true.
Proof.
  intros He Ht Hs Hb; split; [|split].
  - unfold main, script.
    rewrite (fetch_with_token py w token He Ht), Hs; simpl.
    rewrite Hb; simpl.
    now rewrite !append_assoc.
  - rewrite take_length; lia.
  - apply take_prefix.
Qed.

(** C5.  When the body of the answer decodes to an object with an
    [error] member, the script prints [JSON-RPC ERROR:] and that member
    pretty-printed with an indent of 2, exits with status 1 and leaves
    the snapshot file as it was. *)
Theorem envelope_error_reported (w : world) token raw m err :
  environ w token_var = Some token -> truthy token = true ->
  server w (build_request token) = Body raw ->
  loads_bytes py raw = Some (JObj m) ->
  lookup "error" m = Some err ->
  main py w =
    ([Urlopen (build_request token) 60;
      Print ("JSON-RPC ERROR: " ++ dumps_indent 2 err ++ newline)],
     Exit 1) /\
  file_writes (fst (main py w)) = [] /\
  forall old, snapshot_after old (fst (main py w)) = old.
Proof.
  intros He Ht Hs Hl Hm.
  rewrite (envelope_error_run py w token raw m err He Ht Hs Hl Hm).
  repeat split.
Qed.

(** C9.  When the decoded body holds both an [error] and a [result]
    member, the error wins: the run is the one the [error] member alone
    decides, whatever [result] holds; it exits with status 1 and writes
    no file. *)
Theorem envelope_error_precedes_result (w : world) token raw m err res :
  environ w token_var = Some token -> truthy token = true ->
  server w (build_request token) = Body raw ->
  loads_bytes py raw = Some (JObj m) ->
  lookup "error" m = Some err ->
  lookup "result" m = Some res ->
  main py w =
    ([Urlopen (build_request token) 60;
      Print ("JSON-RPC ERROR: " ++ dumps_indent 2 err ++ newline)],
     Exit 1) /\
  exit_status (snd (main py w)) = 1%Z /\
  file_writes (fst (main py w)) = [] /\
  forall old, snapshot_after old (fst (main py w)) = old.
Proof.
  intros He Ht Hs Hl Hm _.
  rewrite (envelope_error_run py w token raw m err He Ht Hs Hl Hm).
  repeat split.
Qed.

End Properties.

(** ** The properties at concrete runs *)

Lemma missing_credential_exits_witness :
  (environ (without_token (Body (envelope (JArr [daily_sync])))) token_var = None \/
   environ (without_token (Body (envelope (JArr [daily_sync])))) token_var
     = Some EmptyString) /\
  main Decoder.lib (without_token (Body (envelope (JArr [daily_sync]))))
    = ([Print ("NO TOKEN SET" ++ newline)], Exit 1).
Proof.
  assert (H : environ (without_token (Body (envelope (JArr [daily_sync])))) token_var
              = None \/
              environ (without_token (Body (envelope (JArr [daily_sync])))) token_var
              = Some EmptyString) by (left; reflexivity).
  split; [exact H|].
  exact (proj1 (missing_credential_exits Decoder.lib _ H)).
Defined.

Lemma http_error_reported_witness :
  bytes_decode Decoder.lib (str_encode "not found") = Some "not found" /\
  main Decoder.lib (with_token (HTTPError 404 (str_encode "not found")))
    = ([the_call; Print ("HTTP 404: not found" ++ newline)], Exit 1).
Proof.
  assert (H : bytes_decode Decoder.lib (str_encode "not found") = Some "not found")
    by reflexivity.
  split; [exact H|].
  exact (proj1 (http_error_reported Decoder.lib
                  (with_token (HTTPError 404 (str_encode "not found")))
                  "secret" 404 (str_encode "not found") "not found"
                  eq_refl eq_refl eq_refl H)).
Defined.

(** C6 as stated fails: when the body of the error is no UTF-8 text,
    decoding it fails inside the handler; nothing is printed and the run
    ends on the exception. *)
Lemma http_error_undecodable_body_prints_nothing :
  bytes_decode Decoder.lib garbled = None /\
  main Decoder.lib (with_token (HTTPError 502 garbled))
    = ([the_call], Uncaught ValueError) /\
  stdout (fst (main Decoder.lib (with_token (HTTPError 502 garbled))))
    = EmptyString /\
  String.prefix "HTTP 502: "
    (stdout (fst (main Decoder.lib (with_token (HTTPError 502 garbled)))))
    = false.
Proof.
  repeat split.
Qed.

Lemma envelope_error_reported_witness :
  loads_bytes Decoder.lib (str_encode (dumps (JObj [("error", no_such_method)])))
    = Some (JObj [("error", no_such_method)]) /\
  main Decoder.lib
    (with_token (Body (str_encode (dumps (JObj [("error", no_such_method)])))))
    = ([the_call;
        Print ("JSON-RPC ERROR: {" ++ newline
               ++ "  " ++ quote "code" ++ ": -32601," ++ newline
               ++ "  " ++ quote "message" ++ ": " ++ quote "no such method" ++ newline
               ++ "}" ++ newline)],
       Exit 1).
Proof.
  assert (H : loads_bytes Decoder.lib
                (str_encode (dumps (JObj [("error", no_such_method)])))
              = Some (JObj [("error", no_such_method)])) by (vm_compute; reflexivity).
  split; [exact H|].
  exact (proj1 (envelope_error_reported Decoder.lib
                  (with_token (Body (str_encode (dumps (JObj [("error", no_such_method)])))))
                  "secret" _ _ no_such_method eq_refl eq_refl eq_refl H eq_refl)).
Defined.

Lemma envelope_error_precedes_result_witness :
  loads_bytes Decoder.lib (str_encode (dumps error_and_result))
    = Some error_and_result /\
  main Decoder.lib (with_token (Body (str_encode (dumps error_and_result))))
    = ([the_call; Print ("JSON-RPC ERROR: " ++ quote "busy" ++ newline)], Exit 1) /\
  file_writes
    (fst (main Decoder.lib (with_token (Body (str_encode (dumps error_and_result))))))
    = [].
Proof.
  assert (H : loads_bytes Decoder.lib (str_encode (dumps error_and_result))
              = Some error_and_result) by (vm_compute; reflexivity).
  split; [exact H|].
  pose proof (envelope_error_precedes_result Decoder.lib
                (with_token (Body (str_encode (dumps error_and_result))))
                "secret" _ _ (JStr "busy") _ eq_refl eq_refl eq_refl H eq_refl eq_refl)
    as (Hmain & _ & Hw & _).
  split; [exact Hmain | exact Hw].
Defined.

Lemma inner_error_reported_witness :
  fetch Decoder.lib (with_token (Body (envelope quota_exceeded)))
    = ([the_call], Next quota_exceeded) /\
  exists token,
    environ (with_token (Body (envelope quota_exceeded))) token_var = Some token /\
    main Decoder.lib (with_token (Body (envelope quota_exceeded)))
      = ([Urlopen (build_request token) 60;
          WriteFile snapshot_path
            ("{" ++ newline ++ "  " ++ quote "error" ++ ": " ++ quote "quota exceeded"
                 ++ newline ++ "}");
          Print ("ERROR: " ++ quote "quota exceeded" ++ newline)],
         Exit 0).
Proof.
  assert (H : fetch Decoder.lib (with_token (Body (envelope quota_exceeded)))
              = ([the_call], Next quota_exceeded)) by (vm_compute; reflexivity).
  split; [exact H|].
  exact (inner_error_reported Decoder.lib _ _ _ (JStr "quota exceeded") H eq_refl).
Defined.

(** C1 as stated fails: the run that reports an inner error ends with
    status 0, not 1. *)
Lemma inner_error_exit_status_not_1 :
  fetch Decoder.lib (with_token (Body (envelope quota_exceeded)))
    = ([the_call], Next quota_exceeded) /\
  stdout (fst (main Decoder.lib (with_token (Body (envelope quota_exceeded)))))
    = "ERROR: " ++ quote "quota exceeded" ++ newline /\
  snd (main Decoder.lib (with_token (Body (envelope quota_exceeded)))) = Exit 0 /\
  exit_status (snd (main Decoder.lib (with_token (Body (envelope quota_exceeded)))))
    <> 1%Z.
Proof.
  repeat split; try (vm_compute; reflexivity).
  vm_compute; discriminate.
Qed.

Lemma sample_flows_view :
  Forall2 (fun v f => as_flow v = Some f) sample_flows sample_view.
Proof.
  repeat constructor.
Defined.

Lemma sample_fetch :
  fetch Decoder.lib (with_token (Body (envelope (JArr sample_flows))))
    = ([the_call], Next (JArr sample_flows)).
Proof.
  vm_compute; reflexivity.
Defined.

Lemma list_prints_table_witness :
  fetch Decoder.lib (with_token (Body (envelope (JArr sample_flows))))
    = ([the_call], Next (JArr sample_flows)) /\
  Forall2 (fun v f => as_flow v = Some f) sample_flows sample_view /\
  main Decoder.lib (with_token (Body (envelope (JArr sample_flows))))
    = ([the_call;
        WriteFile snapshot_path (dumps_indent 2 (JArr sample_flows));
        Print ("Total flows: 3" ++ newline ++ newline);
        Print ("  abcdefghijkl..  | active     | schedule        | Daily Sync" ++ newline);
        Print ("  abc..  | off        | ?               | ?" ++ newline);
        Print ("  ?..  | ?          | ?               | ?" ++ newline)],
       Exit 0).
Proof.
  split; [exact sample_fetch|].
  split; [exact sample_flows_view|].
  exact (proj1 (list_prints_table Decoder.lib _ _ _ _ sample_fetch sample_flows_view)).
Defined.

(** C2 as stated fails twice over.  The state and trigger columns are
    filled on the right, not on the left: the row of the specification's
    own example shows [active] followed by four spaces and never preceded
    by them.  And a list payload need not hold flows: on [[5]] the header
    is printed, the loop fails on the element, and the status is 1. *)
Lemma list_branch_not_as_stated :
  (stdout (fst (main Decoder.lib (with_token (Body (envelope (JArr [daily_sync]))))))
     = "Total flows: 1" ++ newline ++ newline
       ++ "  abcdefghijkl..  | active     | schedule        | Daily Sync" ++ newline /\
   rjust 10 "active" = "    active" /\
   occurs (rjust 10 "active")
     (stdout (fst (main Decoder.lib (with_token (Body (envelope (JArr [daily_sync])))))))
     = false) /\
  (fetch Decoder.lib (with_token (Body (envelope (JArr [JInt 5]))))
     = ([the_call], Next (JArr [JInt 5])) /\
   main Decoder.lib (with_token (Body (envelope (JArr [JInt 5]))))
     = ([the_call; WriteFile snapshot_path ("[" ++ newline ++ "  5" ++ newline ++ "]");
         Print ("Total flows: 1" ++ newline ++ newline)],
        Uncaught AttributeError) /\
   exit_status (snd (main Decoder.lib (with_token (Body (envelope (JArr [JInt 5]))))))
     <> 0%Z).
Proof.
  repeat split; try (vm_compute; reflexivity).
  vm_compute; discriminate.
Qed.

Lemma snapshot_is_decoded_payload_witness :
  main Decoder.lib (with_token (Body (str_encode (dumps decoy_envelope))))
    = ([the_call;
        WriteFile snapshot_path short_flow_file;
        Print ("Total flows: 1" ++ newline ++ newline);
        Print ("  abc..  | off        | ?               | ?" ++ newline)],
       Exit 0) /\
  snapshot_after (Some "stale")
    (fst (main Decoder.lib (with_token (Body (str_encode (dumps decoy_envelope))))))
    = Some short_flow_file /\
  exists token raw m r first rest text inner prints,
    environ (with_token (Body (str_encode (dumps decoy_envelope)))) token_var
      = Some token /\
    server (with_token (Body (str_encode (dumps decoy_envelope))))
      (build_request token) = Body raw /\
    loads_bytes Decoder.lib raw = Some (JObj m) /\
    lookup "result" m = Some (JObj r) /\
    lookup "content" r = Some (JArr (JObj first :: rest)) /\
    lookup "text" first = Some (JStr text) /\
    result_text (JObj m) = Ok (JStr text) /\
    loads_str Decoder.lib text = Some inner /\
    [the_call;
     WriteFile snapshot_path short_flow_file;
     Print ("Total flows: 1" ++ newline ++ newline);
     Print ("  abc..  | off        | ?               | ?" ++ newline)]
      = Urlopen (build_request token) 60
          :: WriteFile snapshot_path (dumps_indent 2 inner) :: prints /\
    Forall (fun e => is_print e = true) prints /\
    forall old,
      snapshot_after old
        [the_call;
         WriteFile snapshot_path short_flow_file;
         Print ("Total flows: 1" ++ newline ++ newline);
         Print ("  abc..  | off        | ?               | ?" ++ newline)]
      = Some (dumps_indent 2 inner).
Proof.
  assert (H : main Decoder.lib
                (with_token (Body (str_encode (dumps decoy_envelope))))
              = ([the_call;
                  WriteFile snapshot_path short_flow_file;
                  Print ("Total flows: 1" ++ newline ++ newline);
                  Print ("  abc..  | off        | ?               | ?" ++ newline)],
                 Exit 0)) by (vm_compute; reflexivity).
  split; [exact H|].
  split; [rewrite H; reflexivity|].
  exact (snapshot_is_decoded_payload Decoder.lib _ _ H).
Defined.

Lemma snapshot_deterministic_witness :
  server (world_of (Some "first") (Body (envelope foo_bar))) (build_request "first")
    = server (world_of (Some "second") (Body (envelope foo_bar))) (build_request "second") /\
  snapshot_written
    (fst (main Decoder.lib (world_of (Some "first") (Body (envelope foo_bar)))))
    = Some (dumps_indent 2 foo_bar) /\
  snapshot_after None
    (fst (main Decoder.lib (world_of (Some "first") (Body (envelope foo_bar)))))
    = Some (dumps_indent 2 foo_bar) /\
  snapshot_after (Some "stale")
    (fst (main Decoder.lib (world_of (Some "second") (Body (envelope foo_bar)))))
    = Some (dumps_indent 2 foo_bar).
Proof.
  assert (Hs : server (world_of (Some "first") (Body (envelope foo_bar)))
                 (build_request "first")
               = server (world_of (Some "second") (Body (envelope foo_bar)))
                   (build_request "second")) by reflexivity.
  assert (Hw : snapshot_written
                 (fst (main Decoder.lib
                         (world_of (Some "first") (Body (envelope foo_bar)))))
               = Some (dumps_indent 2 foo_bar)) by (vm_compute; reflexivity).
  split; [exact Hs|].
  split; [exact Hw|].
  exact (proj2 (snapshot_deterministic Decoder.lib
                  (world_of (Some "first") (Body (envelope foo_bar)))
                  (world_of (Some "second") (Body (envelope foo_bar)))
                  "first" "second" eq_refl eq_refl eq_refl eq_refl Hs)
           (dumps_indent 2 foo_bar) None (Some "stale") Hw).
Defined.

Lemma fallback_dump_witness :
  fetch Decoder.lib (with_token (Body (envelope foo_bar))) = ([the_call], Next foo_bar) /\
  is_list foo_bar = false /\
  has_error_field foo_bar = false /\
  main Decoder.lib (with_token (Body (envelope foo_bar)))
    = ([the_call;
        WriteFile snapshot_path
          ("{" ++ newline ++ "  " ++ quote "foo" ++ ": " ++ quote "bar" ++ newline ++ "}");
        Print ("{" ++ newline ++ "  " ++ quote "foo" ++ ": " ++ quote "bar" ++ newline
                   ++ "}" ++ newline)],
       Exit 0).
Proof.
  assert (H : fetch Decoder.lib (with_token (Body (envelope foo_bar)))
              = ([the_call], Next foo_bar)) by (vm_compute; reflexivity).
  split; [exact H|].
  split; [reflexivity|].
  split; [reflexivity|].
  exact (proj1 (fallback_dump Decoder.lib _ _ _ H eq_refl eq_refl)).
Defined.

Lemma id_suffix_unconditional_witness :
  nth_error sample_view 2
    = Some {| flow_id := None; flow_name := None;
              flow_state := None; flow_trigger := None |} /\
  nth_error (fst (main Decoder.lib (with_token (Body (envelope (JArr sample_flows)))))) 5
    = Some (Print ("  ?..  | ?          | ?               | ?" ++ newline)).
Proof.
  assert (Hlen : String.length (shown None) < 12) by (simpl; lia).
  split; [reflexivity|].
  exact (proj1 (id_suffix_unconditional Decoder.lib _ _ _ _ 2 _
                  sample_fetch sample_flows_view eq_refl Hlen)).
Defined.

(** ** Every run, case by case *)

Lemma stops_within_bind {A B : Type} (P : outcome -> Prop)
    (m : proc A) (k : A -> proc B) :
  stops_within P m -> (forall a, stops_within P (k a)) ->
  stops_within P (bind m k).
Proof.
  intros Hm Hk t o; destruct m as [t1 [a|o1]]; simpl.
  - destruct (k a) as [t2 r] eqn:E; intros H; inversion H; subst.
    eapply Hk; eauto.
  - intros H; inversion H; subst; eapply Hm; eauto.
Qed.

Lemma stops_within_lift {A : Type} (P : outcome -> Prop) (r : result A) :
  (forall e, P (Uncaught e)) -> stops_within P (lift r).
Proof.
  intros HP t o; destruct r; simpl; unfold ret, raise; intros H; inversion H.
  apply HP.
Qed.

Lemma stops_within_lift_opt {A : Type} (P : outcome -> Prop) e (r : option A) :
  P (Uncaught e) -> stops_within P (lift_opt e r).
Proof.
  intros HP t o; destruct r; simpl; unfold ret, raise; intros H; inversion H.
  exact HP.
Qed.

Lemma stops_within_print (P : outcome -> Prop) args : stops_within P (print args).
Proof.
  intros t o H; inversion H.
Qed.

Lemma stops_within_emit (P : outcome -> Prop) e : stops_within P (emit e).
Proof.
  intros t o H; inversion H.
Qed.

Lemma stops_within_ret {A : Type} (P : outcome -> Prop) (a : A) :
  stops_within P (ret a).
Proof.
  intros t o H; inversion H.
Qed.

Lemma stops_within_exit {A : Type} (P : outcome -> Prop) n :
  P (Exit n) -> stops_within P (@exit A n).
Proof.
  intros HP t o H; inversion H; subst; exact HP.
Qed.

Lemma stops_within_raise {A : Type} (P : outcome -> Prop) e :
  P (Uncaught e) -> stops_within P (@raise A e).
Proof.
  intros HP t o H; inversion H; subst; exact HP.
Qed.

#[local] Hint Constructors failed crashed : proc.
#[local] Hint Resolve stops_within_lift stops_within_lift_opt stops_within_print
  stops_within_emit stops_within_ret stops_within_exit stops_within_raise : proc.

Lemma for_each_stops_within {A : Type} (P : outcome -> Prop)
    (l : list A) (body : A -> proc unit) :
  (forall x, stops_within P (body x)) -> stops_within P (for_each l body).
Proof.
  intros Hb; induction l as [|x l IH]; simpl.
  - apply stops_within_ret.
  - apply stops_within_bind; auto.
Qed.

(** The presentation never exits: it runs to its end or fails on an
    exception. *)
Lemma present_crashes (inner : json) : stops_within crashed (present inner).
Proof.
  unfold present; destruct inner;
    try (apply stops_within_bind;
         [auto with proc
         |intros _; apply for_each_stops_within; intros fl; unfold print_flow;
          by_parts ltac:(apply stops_within_bind)]);
    by_parts ltac:(apply stops_within_bind).
Qed.

Lemma present_cases (inner : json) :
  exists prints,
    Forall (fun e => is_print e = true) prints /\
    (present inner = (prints, Next tt) \/
     exists e, present inner = (prints, Stop (Uncaught e))).
Proof.
  pose proof (present_only_prints inner) as Hp.
  pose proof (present_crashes inner) as Hc.
  unfold only_prints in Hp.
  destruct (present inner) as [prints [[]|o]] eqn:E; simpl in Hp.
  - exists prints; auto.
  - destruct (Hc prints o eq_refl) as [e]; exists prints; eauto.
Qed.

Section Cases.

Variable py : pylib.

(** What a reply leads to: an inner payload, an exception, or one of the
    two diagnostics followed by [exit(1)]. *)
Lemma decode_reply_cases (r : reply) :
  (exists inner, decode_reply py r = ([], Next inner)) \/
  (exists e, decode_reply py r = ([], Stop (Uncaught e))) \/
  (exists code body text,
     r = HTTPError code body /\ bytes_decode py body = Some text /\
     decode_reply py r =
       ([Print ("HTTP " ++ str_of_int code ++ ": " ++ take 300 text ++ newline)],
        Stop (Exit 1))) \/
  (exists raw m err,
     r = Body raw /\ loads_bytes py raw = Some (JObj m) /\
     lookup "error" m = Some err /\
     decode_reply py r =
       ([Print ("JSON-RPC ERROR: " ++ dumps_indent 2 err ++ newline)],
        Stop (Exit 1))).
Proof.
  unfold decode_reply; destruct r as [raw|code body|]; simpl.
  - destruct (loads_bytes py raw) as [resp|] eqn:Hl; simpl;
      [|right; left; eexists; reflexivity].
    destruct resp as [| | | |s|l|m];
      try (right; left; eexists; reflexivity).
    + unfold check_envelope; simpl.
      destruct (occurs "error" s); simpl; right; left; eexists; reflexivity.
    + unfold check_envelope; simpl.
      destruct (existsb (is_str "error") l); simpl;
        right; left; eexists; reflexivity.
    + unfold check_envelope, has_key; simpl; unfold has_key.
      destruct (lookup "error" m) as [err|] eqn:Hm; simpl.
      * right; right; right; exists raw, m, err; repeat split; auto.
      * unfold extract_inner.
        destruct (result_text (JObj m)) as [v|e] eqn:Hr; simpl;
          [|right; left; eexists; reflexivity].
        destruct v; simpl; try (right; left; eexists; reflexivity).
        destruct (loads_str py s) as [inner|]; simpl;
          [left; eexists; reflexivity | right; left; eexists; reflexivity].
  - destruct (bytes_decode py body) as [text|] eqn:Hb; simpl.
    + right; right; left; exists code, body, text; repeat split; auto.
      now rewrite !append_assoc.
    + right; left; eexists; reflexivity.
  - right; left; eexists; reflexivity.
Qed.

Lemma main_after_reply (w : world) (token : string) :
  environ w token_var = Some token -> truthy token = true ->
  main py w =
    finish (emit (Urlopen (build_request token) 60) ;;
            inner <- decode_reply py (server w (build_request token)) ;;
            persist inner ;;
            present inner).
Proof.
  intros He Ht; unfold main, script.
  rewrite (fetch_with_token py w token He Ht); unfold decode_reply; simpl.
  destruct (resp <- handle_reply py (server w (build_request token)) ;;
            check_envelope resp ;; extract_inner py resp) as [t [inner|o]];
    simpl; [|reflexivity].
  now destruct (present inner) as [t' [[]|o]].
Qed.

Lemma token_cases (w : world) :
  (environ w token_var = None \/ environ w token_var = Some EmptyString) \/
  exists token, environ w token_var = Some token /\ truthy token = true.
Proof.
  destruct (environ w token_var) as [[|c s]|]; auto.
  right; exists (String c s); auto.
Qed.

End Cases.

(** ** Further properties of the script *)

Section Further.

Variable py : pylib.

(** The run with a credential, by what the reply leads to. *)
Lemma main_cases (w : world) (token : string) :
  environ w token_var = Some token -> truthy token = true ->
  (exists e, main py w = ([Urlopen (build_request token) 60], Uncaught e)) \/
  (exists code body text,
     server w (build_request token) = HTTPError code body /\
     bytes_decode py body = Some text /\
     main py w =
       ([Urlopen (build_request token) 60;
         Print ("HTTP " ++ str_of_int code ++ ": " ++ take 300 text ++ newline)],
        Exit 1)) \/
  (exists raw m err,
     server w (build_request token) = Body raw /\
     loads_bytes py raw = Some (JObj m) /\
     lookup "error" m = Some err /\
     main py w =
       ([Urlopen (build_request token) 60;
         Print ("JSON-RPC ERROR: " ++ dumps_indent 2 err ++ newline)],
        Exit 1)) \/
  (exists inner prints o,
     main py w =
       (Urlopen (build_request token) 60
          :: WriteFile snapshot_path (dumps_indent 2 inner) :: prints, o) /\
     Forall (fun e => is_print e = true) prints /\
     (o = Exit 0 \/ crashed o)).
Proof.
  intros He Ht; rewrite (main_after_reply py w token He Ht).
  destruct (decode_reply_cases py (server w (build_request token)))
    as [[inner H] | [[e H] | [(code & body & text & Hs & Hb & H)
                             | (raw & m & err & Hs & Hl & Hm & H)]]];
    rewrite H; simpl.
  - right; right; right.
    destruct (present_cases inner) as (prints & Hp & [Hn | [e Hn]]);
      rewrite Hn; simpl; exists inner, prints.
    + exists (Exit 0); auto.
    + exists (Uncaught e); repeat split; auto with proc.
  - left; exists e; reflexivity.
  - right; left; exists code, body, text; auto.
  - right; right; left; exists raw, m, err; auto.
Qed.

Lemma main_without_token (w : world) :
  environ w token_var = None \/ environ w token_var = Some EmptyString ->
  main py w = ([Print ("NO TOKEN SET" ++ newline)], Exit 1).
Proof.
  intros H; unfold main, script, fetch.
  rewrite (acquire_token_unset w H); reflexivity.
Qed.

(** X1.  Every run has one of five shapes: the credential diagnostic
    alone; the call and then an exception; the call, one diagnostic and
    [exit(1)]; or the call, one write to the snapshot path and then prints
    only, ending with status 0 or on an exception.  So no run calls the
    server twice, writes twice, writes elsewhere, writes before the call
    or prints before the write. *)
Theorem run_shape (w : world) :
  main py w = ([Print ("NO TOKEN SET" ++ newline)], Exit 1) \/
  exists token,
    environ w token_var = Some token /\ truthy token = true /\
    ((exists e, main py w = ([Urlopen (build_request token) 60], Uncaught e)) \/
     (exists d,
        main py w = ([Urlopen (build_request token) 60; Print d], Exit 1)) \/
     (exists inner prints o,
        main py w =
          (Urlopen (build_request token) 60
             :: WriteFile snapshot_path (dumps_indent 2 inner) :: prints, o) /\
        Forall (fun e => is_print e = true) prints /\
        (o = Exit 0 \/ crashed o))).
Proof.
  destruct (token_cases w) as [H | (token & He & Ht)].
  - left; now apply main_without_token.
  - right; exists token; split; [exact He | split; [exact Ht|]].
    destruct (main_cases w token He Ht)
      as [H | [(code & body & text & _ & _ & H)
              | [(raw & m & err & _ & _ & _ & H) | H]]]; eauto.
Qed.

(** X2.  The script ends through [exit(1)] in exactly three situations:
    the credential is absent or empty; the server answered with an HTTP
    error whose body decodes; the body of the answer decodes to an object
    with an [error] member. *)
Theorem exit_1_iff (w : world) :
  snd (main py w) = Exit 1 <->
  (environ w token_var = None \/ environ w token_var = Some EmptyString) \/
  (exists token,
     environ w token_var = Some token /\ truthy token = true /\
     ((exists code body text,
         server w (build_request token) = HTTPError code body /\
         bytes_decode py body = Some text) \/
      (exists raw m err,
         server w (build_request token) = Body raw /\
         loads_bytes py raw = Some (JObj m) /\
         lookup "error" m = Some err))).
Proof.
  split.
  - intros H; destruct (token_cases w) as [Hn | (token & He & Ht)]; [now left|].
    right; exists token; split; [exact He | split; [exact Ht|]].
    destruct (main_cases w token He Ht)
      as [[e E] | [(code & body & text & Hs & Hb & E)
                  | [(raw & m & err & Hs & Hl & Hm & E)
                    | (inner & prints & o & E & _ & Ho)]]];
      rewrite E in H; simpl in H.
    + discriminate.
    + left; exists code, body, text; auto.
    + right; exists raw, m, err; auto.
    + subst o; destruct Ho as [Ho | Ho]; [discriminate | inversion Ho].
  - intros [H | (token & He & Ht & [(code & body & text & Hs & Hb)
                                   | (raw & m & err & Hs & Hl & Hm)])].
    + now rewrite (main_without_token w H).
    + rewrite (main_after_reply py w token He Ht), Hs; unfold decode_reply; simpl.
      rewrite Hb; reflexivity.
    + now rewrite (envelope_error_run py w token raw m err He Ht Hs Hl Hm).
Qed.

(** X3.  The credential reaches the request and nothing else: two runs
    with different credentials and the same answer print the same text,
    end the same way and write the same file. *)
Theorem credential_only_in_request (w1 w2 : world) token1 token2 :
  environ w1 token_var = Some token1 -> truthy token1 = true ->
  environ w2 token_var = Some token2 -> truthy token2 = true ->
  server w1 (build_request token1) = server w2 (build_request token2) ->
  stdout (fst (main py w1)) = stdout (fst (main py w2)) /\
  snd (main py w1) = snd (main py w2) /\
  file_writes (fst (main py w1)) = file_writes (fst (main py w2)) /\
  tl (fst (main py w1)) = tl (fst (main py w2)).
Proof.
  intros He1 Ht1 He2 Ht2 Hs.
  rewrite (main_with_token py w1 token1 He1 Ht1),
    (main_with_token py w2 token2 He2 Ht2), Hs.
  repeat split.
Qed.

(** X4.  A run that ends on an exception without having written the
    snapshot file has printed nothing: it made the call and no more. *)
Theorem uncaught_before_write_is_silent (w : world) t e :
  main py w = (t, Uncaught e) ->
  file_writes t = [] ->
  stdout t = EmptyString /\
  exists token,
    environ w token_var = Some token /\ truthy token = true /\
    t = [Urlopen (build_request token) 60].
Proof.
  intros H Hw.
  destruct (token_cases w) as [Hn | (token & He & Ht)].
  - rewrite (main_without_token w Hn) in H; discriminate.
  - destruct (main_cases w token He Ht)
      as [[e' E] | [(code & body & text & _ & _ & E)
                   | [(raw & m & err & _ & _ & _ & E)
                     | (inner & prints & o & E & _ & _)]]];
      rewrite E in H; inversion H; subst; clear H.
    + split; [reflexivity | exists token; auto].
    + discriminate Hw.
Qed.

(** X5.  A body that decodes to anything but an object ends the run on a
    [TypeError] right after the call, also when it is a list or a text in
    which [error] occurs: the membership test passes there and the
    subscript that follows fails. *)
Theorem non_object_body_uncaught (w : world) token raw resp :
  environ w token_var = Some token -> truthy token = true ->
  server w (build_request token) = Body raw ->
  loads_bytes py raw = Some resp ->
  is_dict resp = false ->
  main py w = ([Urlopen (build_request token) 60], Uncaught TypeError).
Proof.
  intros He Ht Hs Hl Hd.
  rewrite (main_after_reply py w token He Ht), Hs; unfold decode_reply; simpl.
  rewrite Hl; simpl.
  destruct resp as [| | | |s|l|m]; try discriminate; try reflexivity;
    unfold check_envelope; simpl.
  - now destruct (occurs "error" s).
  - now destruct (existsb (is_str "error") l).
Qed.

(** X6.  When the envelope has no [error] member and the path
    [result.content[0].text] does not exist in it, the run ends on the
    exception of the failing subscript ([KeyError] when [result] is
    missing), with nothing printed and nothing written. *)
Theorem malformed_envelope_uncaught (w : world) token raw m e :
  environ w token_var = Some token -> truthy token = true ->
  server w (build_request token) = Body raw ->
  loads_bytes py raw = Some (JObj m) ->
  lookup "error" m = None ->
  result_text (JObj m) = Raise e ->
  main py w = ([Urlopen (build_request token) 60], Uncaught e) /\
  (lookup "result" m = None -> e = KeyError).
Proof.
  intros He Ht Hs Hl Hm Hr; split.
  - rewrite (main_after_reply py w token He Ht), Hs; unfold decode_reply; simpl.
    rewrite Hl; simpl; unfold check_envelope, extract_inner, has_key; simpl.
    unfold has_key; rewrite Hm; simpl; rewrite Hr; reflexivity.
  - intros Hn; unfold result_text in Hr; simpl in Hr; rewrite Hn in Hr.
    now inversion Hr.
Qed.

(** X7.  When the value at [result.content[0].text] is not text (an
    object already decoded, say) the second [json.loads] refuses it with a
    [TypeError]; when it is text that does not decode, the run ends on a
    [ValueError].  Either way nothing is printed and nothing written. *)
Theorem undecodable_text_uncaught (w : world) token raw m v :
  environ w token_var = Some token -> truthy token = true ->
  server w (build_request token) = Body raw ->
  loads_bytes py raw = Some (JObj m) ->
  lookup "error" m = None ->
  result_text (JObj m) = Ok v ->
  (is_text v = false ->
   main py w = ([Urlopen (build_request token) 60], Uncaught TypeError)) /\
  (forall s, v = JStr s -> loads_str py s = None ->
   main py w = ([Urlopen (build_request token) 60], Uncaught ValueError)).
Proof.
  intros He Ht Hs Hl Hm Hr.
  assert (E : main py w =
              finish (emit (Urlopen (build_request token) 60) ;;
                      inner <- json_loads py v ;; persist inner ;; present inner)).
  { rewrite (main_after_reply py w token He Ht), Hs; unfold decode_reply; simpl.
    rewrite Hl; simpl; unfold check_envelope, extract_inner, has_key; simpl.
    unfold has_key; rewrite Hm; simpl; rewrite Hr; simpl.
    now destruct (json_loads py v) as [t [inner|o]]; simpl;
      [destruct (present inner) as [t' [[]|o]]|]. }
  split.
  - intros Hv; rewrite E; destruct v; try discriminate; reflexivity.
  - intros s -> Hn; rewrite E; simpl; rewrite Hn; reflexivity.
Qed.

(** X8.  In the fallback branch the text printed is the content of the
    snapshot file cut to 2000 characters: the whole content when it has
    no more than that, and exactly 2000 characters of it otherwise, a
    newline after it in both cases. *)
Theorem fallback_shows_snapshot (w : world) t0 inner :
  fetch py w = (t0, Next inner) ->
  is_list inner = false ->
  has_error_field inner = false ->
  exists content,
    snapshot_written (fst (main py w)) = Some content /\
    content = dumps_indent 2 inner /\
    stdout (fst (main py w)) = take 2000 content ++ newline /\
    (String.length content <= 2000 ->
     stdout (fst (main py w)) = content ++ newline) /\
    (2000 < String.length content ->
     String.length (stdout (fst (main py w))) = 2001).
Proof.
  intros Hf Hl He.
  destruct (fetch_next_inv py w t0 inner Hf)
    as (token & raw & resp & text & _ & _ & _ & _ & _ & _ & _ & ->).
  exists (dumps_indent 2 inner).
  rewrite (main_of_fetch py w _ _ Hf), (present_fallback inner Hl He).
  cbn [finish fst app snapshot_written stdout].
  rewrite String.eqb_refl.
  assert (E : forall s, s ++ EmptyString = s)
    by (induction s as [|c s IH]; simpl; [reflexivity | now rewrite IH]).
  rewrite E; repeat split.
  - intros Hlen; now rewrite take_all.
  - intros Hlen; rewrite append_length, take_length.
    change (String.length newline) with 1; lia.
Qed.

End Further.

(** ** The table, row by row *)

Lemma slice_to_raises (n : nat) (v : json) (e : exn) :
  slice_to n v = Raise e -> e = TypeError.
Proof.
  destruct v; simpl; intros H; inversion H; reflexivity.
Qed.

Lemma format_left_raises (width : nat) (v : json) (e : exn) :
  format_left width v = Raise e -> e = TypeError.
Proof.
  destruct v; simpl; intros H; inversion H; reflexivity.
Qed.

(** The loop body on an object: a row when the id can be sliced and the
    state and the trigger can be formatted, a [TypeError] otherwise. *)
Lemma print_flow_object (m : list (string * json)) :
  print_flow (JObj m) =
    match slice_to 12 (field_or_mark m "id"),
          format_left 10 (field_or_mark m "state"),
          format_left 15 (field_or_mark m "triggerType") with
    | Ok fid, Ok state_field, Ok trigger_field =>
        ([Print ("  " ++ py_str fid ++ "..  | " ++ state_field ++ " | "
                      ++ trigger_field ++ " | "
                      ++ py_str (field_or_mark m "displayName") ++ newline)],
         Next tt)
    | _, _, _ => ([], Stop (Uncaught TypeError))
    end.
Proof.
  unfold print_flow, dict_get, field_or_mark.
  destruct (lookup "id" m) as [a|]; destruct (lookup "displayName" m) as [b|];
    destruct (lookup "state" m) as [c|]; destruct (lookup "triggerType" m) as [d|];
    cbn [lift ret bind app];
    repeat match goal with
      | |- context [slice_to ?n ?v] =>
          let E := fresh "E" in
          destruct (slice_to n v) as [?|?] eqn:E;
          [|apply slice_to_raises in E; subst]
      | |- context [format_left ?n ?v] =>
          let E := fresh "E" in
          destruct (format_left n v) as [?|?] eqn:E;
          [|apply format_left_raises in E; subst]
      end;
    cbn [lift ret raise bind app print emit join String.concat];
    rewrite ?append_assoc; reflexivity.
Qed.

Lemma print_flow_not_object (v : json) :
  is_dict v = false -> print_flow v = ([], Stop (Uncaught AttributeError)).
Proof.
  destruct v; simpl; intros H; try discriminate; reflexivity.
Qed.

Lemma text_field_mark (k : string) (m : list (string * json)) (x : option string) :
  text_field k m = Some x -> field_or_mark m k = JStr (shown x).
Proof.
  unfold text_field, field_or_mark.
  destruct (lookup k m) as [[]|]; intros H; inversion H; reflexivity.
Qed.

Lemma for_each_stops_at (good : list json) (fs : list flow)
    (bad : json) (rest : list json) (o : outcome) :
  Forall2 (fun v f => as_flow v = Some f) good fs ->
  print_flow bad = ([], Stop o) ->
  for_each (good ++ bad :: rest) print_flow =
    (map (fun f => Print (row f ++ newline)) fs, Stop o).
Proof.
  intros Hg Hb; induction Hg as [|v f good fs Hv _ IH]; simpl.
  - rewrite Hb; reflexivity.
  - rewrite (print_flow_row v f Hv), IH; reflexivity.
Qed.

Section Table.

Variable py : pylib.

(** X9.  When an element of the list is not an object, the snapshot file
    still holds the whole list and the header still counts every
    element; the rows of the flows before that element are printed, and
    the run ends there on an [AttributeError]. *)
Theorem table_stops_at_first_non_object (w : world) t0 good fs bad rest :
  fetch py w = (t0, Next (JArr (good ++ bad :: rest))) ->
  Forall2 (fun v f => as_flow v = Some f) good fs ->
  is_dict bad = false ->
  main py w =
    ((t0 ++ WriteFile snapshot_path (dumps_indent 2 (JArr (good ++ bad :: rest)))
         :: Print (header (List.length good + 1 + List.length rest))
         :: map (fun f => Print (row f ++ newline)) fs)%list,
     Uncaught AttributeError).
Proof.
  intros Hf Hg Hb.
  rewrite (main_of_fetch py w _ _ Hf); unfold present.
  rewrite (for_each_stops_at good fs bad rest _ Hg (print_flow_not_object bad Hb)).
  cbn [print emit bind finish app join String.concat].
  rewrite length_app; cbn [List.length].
  replace (List.length good + S (List.length rest))
    with (List.length good + 1 + List.length rest) by lia.
  unfold header; now rewrite !append_assoc.
Qed.

End Table.

(** X10.  The mark [?] stands in for a missing key only: a flow whose
    [displayName] is present and null is shown with the name [None]. *)
Theorem null_name_shown_as_None (m : list (string * json)) i s t :
  text_field "id" m = Some i ->
  text_field "state" m = Some s ->
  text_field "triggerType" m = Some t ->
  lookup "displayName" m = Some JNull ->
  print_flow (JObj m) =
    ([Print ("  " ++ take 12 (shown i) ++ "..  | " ++ ljust 10 (shown s) ++ " | "
                  ++ ljust 15 (shown t) ++ " | None" ++ newline)],
     Next tt).
Proof.
  intros Hi Hs Ht Hn; rewrite print_flow_object.
  rewrite (text_field_mark _ _ _ Hi), (text_field_mark _ _ _ Hs),
    (text_field_mark _ _ _ Ht).
  unfold field_or_mark; rewrite Hn; reflexivity.
Qed.

(** X11.  A flow whose [id], [state] or [triggerType] is present and
    null gets no row: the loop body fails on a [TypeError] before it
    prints. *)
Theorem null_column_raises (m : list (string * json)) :
  lookup "id" m = Some JNull \/ lookup "state" m = Some JNull \/
  lookup "triggerType" m = Some JNull ->
  print_flow (JObj m) = ([], Stop (Uncaught TypeError)).
Proof.
  intros H; rewrite print_flow_object; unfold field_or_mark.
  destruct H as [H | [H | H]]; rewrite H; simpl.
  - reflexivity.
  - now destruct (slice_to 12 _).
  - now destruct (slice_to 12 _); [destruct (format_left 10 _)|].
Qed.

(** X12.  In the row of a flow the name starts after
    [14 + min 12 |id| + max 10 |state| + max 15 |trigger|] characters: at
    column 51 when the id has 12 characters or more and the state and the
    trigger fit their columns, further left when the id is shorter, and
    further right when the state or the trigger is longer than its
    column. *)
Theorem name_column (v : json) (f : flow) :
  as_flow v = Some f ->
  exists before,
    print_flow v = ([Print (before ++ shown (flow_name f) ++ newline)], Next tt) /\
    String.length before =
      14 + Nat.min 12 (String.length (shown (flow_id f)))
         + Nat.max 10 (String.length (shown (flow_state f)))
         + Nat.max 15 (String.length (shown (flow_trigger f))) /\
    (12 <= String.length (shown (flow_id f)) ->
     String.length (shown (flow_state f)) <= 10 ->
     String.length (shown (flow_trigger f)) <= 15 ->
     String.length before = 51).
Proof.
  intros Hv.
  exists ("  " ++ take 12 (shown (flow_id f)) ++ "..  | "
               ++ ljust 10 (shown (flow_state f)) ++ " | "
               ++ ljust 15 (shown (flow_trigger f)) ++ " | ").
  assert (L : String.length
                ("  " ++ take 12 (shown (flow_id f)) ++ "..  | "
                      ++ ljust 10 (shown (flow_state f)) ++ " | "
                      ++ ljust 15 (shown (flow_trigger f)) ++ " | ")
              = 14 + Nat.min 12 (String.length (shown (flow_id f)))
                + Nat.max 10 (String.length (shown (flow_state f)))
                + Nat.max 15 (String.length (shown (flow_trigger f)))).
  { rewrite !append_length, take_length, !ljust_length; simpl; lia. }
  split; [|split].
  - rewrite (print_flow_row v f Hv); unfold row, columns.
    rewrite !append_assoc; reflexivity.
  - exact L.
  - intros; rewrite L; lia.
Qed.

(** ** The characters of the encoder's output *)

Lemma all_chars_app (p : ascii -> bool) (s1 s2 : string) :
  all_chars p s1 = true -> all_chars p s2 = true ->
  all_chars p (s1 ++ s2) = true.
Proof.
  induction s1 as [|c s1 IH]; simpl; auto.
  intros H1 H2; apply andb_true_iff in H1 as [Hc H1].
  rewrite Hc; simpl; auto.
Qed.

Lemma all_chars_weaken (p q : ascii -> bool) (s : string) :
  (forall c, p c = true -> q c = true) ->
  all_chars p s = true -> all_chars q s = true.
Proof.
  intros Hpq; induction s as [|c s IH]; simpl; auto.
  intros H; apply andb_true_iff in H as [Hc H].
  rewrite (Hpq c Hc); simpl; auto.
Qed.

Lemma spaces_printable (n : nat) : all_chars printable (spaces n) = true.
Proof.
  induction n; simpl; auto.
Qed.

Lemma uint_printable (d : Decimal.uint) :
  all_chars printable (NilEmpty.string_of_uint d) = true.
Proof.
  induction d; simpl; auto.
Qed.

Lemma nilzero_uint_printable (d : Decimal.uint) :
  all_chars printable (NilZero.string_of_uint d) = true.
Proof.
  unfold NilZero.string_of_uint; destruct d; try reflexivity;
    exact (uint_printable _).
Qed.

Lemma str_of_int_printable (n : Z) : all_chars printable (str_of_int n) = true.
Proof.
  unfold str_of_int, NilZero.string_of_int.
  destruct (Z.to_int n) as [d|d]; [apply nilzero_uint_printable|].
  cbn [all_chars]; rewrite nilzero_uint_printable; reflexivity.
Qed.

Lemma escape_ascii_printable (c : ascii) :
  all_chars printable (escape_ascii c) = true.
Proof.
  destruct c as [[|] [|] [|] [|] [|] [|] [|] [|]]; reflexivity.
Qed.

Lemma encode_basestring_printable (s : string) :
  all_chars printable (encode_basestring_ascii s) = true.
Proof.
  unfold encode_basestring_ascii.
  apply (all_chars_app printable dquote); [reflexivity|].
  apply all_chars_app; [|reflexivity].
  induction s as [|c s IH]; simpl; [reflexivity|].
  apply all_chars_app; [apply escape_ascii_printable | exact IH].
Qed.

(** The encoder's output holds the characters of the values' own text
    (all printable) and those of its line breaks. *)
Lemma iterencode_chars (p : ascii -> bool) (indent : option nat) :
  (forall c, printable c = true -> p c = true) ->
  (forall level, all_chars p (newline_indent indent level) = true) ->
  forall v, reprs_printable v = true ->
  forall level, all_chars p (iterencode indent level v) = true.
Proof.
  intros Hp Hn.
  assert (Hw : forall s, all_chars printable s = true -> all_chars p s = true)
    by (intros s; apply all_chars_weaken, Hp).
  assert (Hsep : all_chars p (item_separator indent) = true)
    by (destruct indent; apply Hw; reflexivity).
  induction v as [|b|n|f|s|l IH|m IH] using json_nested_ind;
    intros Hv level.
  - apply Hw; reflexivity.
  - destruct b; apply Hw; reflexivity.
  - apply Hw, str_of_int_printable.
  - destruct f; try (apply Hw; reflexivity); apply Hw; exact Hv.
  - apply Hw, encode_basestring_printable.
  - assert (Hall : Forall (fun y => forall level,
                             all_chars p (iterencode indent level y) = true) l).
    { cbn [reprs_printable] in Hv; rewrite forallb_forall in Hv.
      rewrite Forall_forall in IH |- *; intros y Hy; auto. }
    clear IH Hv; destruct Hall as [|x xs Hx Hxs]; [apply Hw; reflexivity|].
    cbn [iterencode]; at_each_append ltac:(apply all_chars_app); auto; try (apply Hw; reflexivity).
    induction Hxs as [|y ys Hy _ IHys]; [reflexivity|].
    at_each_append ltac:(apply all_chars_app); auto.
  - assert (Hall : Forall (fun kv => forall level,
                             all_chars p (iterencode indent level (snd kv)) = true) m).
    { cbn [reprs_printable] in Hv; rewrite forallb_forall in Hv.
      rewrite Forall_forall in IH |- *; intros kv Hkv; auto. }
    clear IH Hv; destruct Hall as [|[k x] kxs Hx Hxs]; [apply Hw; reflexivity|].
    cbn [iterencode]; at_each_append ltac:(apply all_chars_app); auto;
      try (apply Hw; first [reflexivity | apply encode_basestring_printable]).
    induction Hxs as [|[k' y] ys Hy _ IHys]; [reflexivity|].
    at_each_append ltac:(apply all_chars_app); auto;
      try (apply Hw; first [reflexivity | apply encode_basestring_printable]).
Qed.

(** X13.  What [json.dumps] gives is plain ASCII whatever the value
    holds: the compact form has printable characters only and so stays on
    one line, the indented form has printable characters and line feeds.
    The snapshot file and the request body therefore read the same in any
    ASCII-compatible encoding. *)
Theorem dumps_is_ascii (v : json) :
  reprs_printable v = true ->
  all_chars printable (dumps v) = true /\
  forall width, all_chars printable_or_newline (dumps_indent width v) = true.
Proof.
  intros Hv; split.
  - apply (iterencode_chars printable None); auto.
  - intros width.
    apply (iterencode_chars printable_or_newline (Some width)); auto.
    + intros c Hc; unfold printable_or_newline; now rewrite Hc.
    + intros level; unfold newline_indent.
      apply (all_chars_app _ newline); [reflexivity|].
      eapply all_chars_weaken; [|apply spaces_printable].
      intros c Hc; unfold printable_or_newline; now rewrite Hc.
Qed.

(** ** The further properties at concrete runs *)

Lemma credential_only_in_request_witness :
  server (world_of (Some "first") (Body (envelope (JArr sample_flows))))
    (build_request "first")
  = server (world_of (Some "second") (Body (envelope (JArr sample_flows))))
      (build_request "second") /\
  stdout (fst (main Decoder.lib
                 (world_of (Some "first") (Body (envelope (JArr sample_flows))))))
  = stdout (fst (main Decoder.lib
                   (world_of (Some "second") (Body (envelope (JArr sample_flows)))))) /\
  snd (main Decoder.lib
         (world_of (Some "first") (Body (envelope (JArr sample_flows)))))
  = snd (main Decoder.lib
           (world_of (Some "second") (Body (envelope (JArr sample_flows))))).
Proof.
  assert (Hs : server (world_of (Some "first") (Body (envelope (JArr sample_flows))))
                 (build_request "first")
               = server (world_of (Some "second") (Body (envelope (JArr sample_flows))))
                   (build_request "second")) by reflexivity.
  pose proof (credential_only_in_request Decoder.lib
                (world_of (Some "first") (Body (envelope (JArr sample_flows))))
                (world_of (Some "second") (Body (envelope (JArr sample_flows))))
                "first" "second" eq_refl eq_refl eq_refl eq_refl Hs)
    as (Hout & Hend & _).
  split; [exact Hs | split; [exact Hout | exact Hend]].
Defined.

Lemma uncaught_before_write_is_silent_witness :
  main Decoder.lib (with_token Fault) = ([the_call], Uncaught URLError) /\
  file_writes [the_call] = [] /\
  stdout [the_call] = EmptyString /\
  exists token,
    environ (with_token Fault) token_var = Some token /\ truthy token = true /\
    [the_call] = [Urlopen (build_request token) 60].
Proof.
  assert (H : main Decoder.lib (with_token Fault) = ([the_call], Uncaught URLError))
    by reflexivity.
  split; [exact H | split; [reflexivity|]].
  exact (uncaught_before_write_is_silent Decoder.lib (with_token Fault)
           [the_call] URLError H eq_refl).
Defined.

Lemma non_object_body_uncaught_witness :
  loads_bytes Decoder.lib (str_encode (dumps (JArr [JStr "error"])))
    = Some (JArr [JStr "error"]) /\
  contains "error" (JArr [JStr "error"]) = Ok true /\
  main Decoder.lib (with_token (Body (str_encode (dumps (JArr [JStr "error"])))))
    = ([the_call], Uncaught TypeError).
Proof.
  assert (H : loads_bytes Decoder.lib (str_encode (dumps (JArr [JStr "error"])))
              = Some (JArr [JStr "error"])) by (vm_compute; reflexivity).
  split; [exact H | split; [reflexivity|]].
  exact (non_object_body_uncaught Decoder.lib
           (with_token (Body (str_encode (dumps (JArr [JStr "error"])))))
           "secret" _ _ eq_refl eq_refl eq_refl H eq_refl).
Defined.

Lemma malformed_envelope_uncaught_witness :
  loads_bytes Decoder.lib (str_encode (dumps empty_content)) = Some empty_content /\
  result_text empty_content = Raise IndexError /\
  main Decoder.lib (with_token (Body (str_encode (dumps empty_content))))
    = ([the_call], Uncaught IndexError).
Proof.
  assert (H : loads_bytes Decoder.lib (str_encode (dumps empty_content))
              = Some empty_content) by (vm_compute; reflexivity).
  split; [exact H | split; [reflexivity|]].
  exact (proj1 (malformed_envelope_uncaught Decoder.lib
                  (with_token (Body (str_encode (dumps empty_content))))
                  "secret" _ _ IndexError eq_refl eq_refl eq_refl H eq_refl eq_refl)).
Defined.

Lemma undecodable_text_uncaught_witness :
  loads_bytes Decoder.lib (str_encode (dumps nested_text)) = Some nested_text /\
  result_text nested_text = Ok foo_bar /\
  is_text foo_bar = false /\
  main Decoder.lib (with_token (Body (str_encode (dumps nested_text))))
    = ([the_call], Uncaught TypeError).
Proof.
  assert (H : loads_bytes Decoder.lib (str_encode (dumps nested_text))
              = Some nested_text) by (vm_compute; reflexivity).
  split; [exact H | split; [reflexivity | split; [reflexivity|]]].
  exact (proj1 (undecodable_text_uncaught Decoder.lib
                  (with_token (Body (str_encode (dumps nested_text))))
                  "secret" _ _ foo_bar eq_refl eq_refl eq_refl H eq_refl eq_refl)
           eq_refl).
Defined.

Lemma fallback_shows_snapshot_witness :
  fetch Decoder.lib (with_token (Body (envelope (JStr "pong"))))
    = ([the_call], Next (JStr "pong")) /\
  exists content,
    snapshot_written (fst (main Decoder.lib (with_token (Body (envelope (JStr "pong"))))))
      = Some content /\
    content = dumps_indent 2 (JStr "pong") /\
    stdout (fst (main Decoder.lib (with_token (Body (envelope (JStr "pong"))))))
      = take 2000 content ++ newline.
Proof.
  assert (H : fetch Decoder.lib (with_token (Body (envelope (JStr "pong"))))
              = ([the_call], Next (JStr "pong"))) by (vm_compute; reflexivity).
  split; [exact H|].
  destruct (fallback_shows_snapshot Decoder.lib _ _ _ H eq_refl eq_refl)
    as (content & Hw & Hc & Hout & _).
  exists content; split; [exact Hw | split; [exact Hc | exact Hout]].
Defined.

Lemma mixed_fetch :
  fetch Decoder.lib (with_token (Body (envelope (JArr mixed_list))))
    = ([the_call], Next (JArr ([daily_sync] ++ JInt 5 :: [short_flow]))).
Proof.
  vm_compute; reflexivity.
Defined.

Lemma table_stops_at_first_non_object_witness :
  Forall2 (fun v f => as_flow v = Some f) [daily_sync] [daily_view] /\
  is_dict (JInt 5) = false /\
  main Decoder.lib (with_token (Body (envelope (JArr mixed_list))))
    = ([the_call;
        WriteFile snapshot_path (dumps_indent 2 (JArr mixed_list));
        Print ("Total flows: 3" ++ newline ++ newline);
        Print ("  abcdefghijkl..  | active     | schedule        | Daily Sync" ++ newline)],
       Uncaught AttributeError).
Proof.
  assert (Hg : Forall2 (fun v f => as_flow v = Some f) [daily_sync] [daily_view])
    by (repeat constructor).
  split; [exact Hg | split; [reflexivity|]].
  exact (table_stops_at_first_non_object Decoder.lib _ _ _ _ _ _
           mixed_fetch Hg eq_refl).
Defined.

Lemma null_name_shown_as_None_witness :
  lookup "displayName" [("id", JStr "abc"); ("displayName", JNull); ("state", JStr "on")]
    = Some JNull /\
  print_flow unnamed_flow
    = ([Print ("  abc..  | on         | ?               | None" ++ newline)], Next tt).
Proof.
  split; [reflexivity|].
  exact (null_name_shown_as_None
           [("id", JStr "abc"); ("displayName", JNull); ("state", JStr "on")]
           (Some "abc") (Some "on") None eq_refl eq_refl eq_refl eq_refl).
Defined.

Lemma null_column_raises_witness :
  lookup "state" [("id", JStr "abc"); ("state", JNull)] = Some JNull /\
  print_flow stateless_flow = ([], Stop (Uncaught TypeError)).
Proof.
  split; [reflexivity|].
  exact (null_column_raises [("id", JStr "abc"); ("state", JNull)]
           (or_intror (or_introl eq_refl))).
Defined.

Lemma name_column_witness :
  as_flow daily_sync = Some daily_view /\
  exists before,
    print_flow daily_sync = ([Print (before ++ "Daily Sync" ++ newline)], Next tt) /\
    String.length before = 51.
Proof.
  assert (H : as_flow daily_sync = Some daily_view) by reflexivity.
  assert (Hid : 12 <= String.length (shown (flow_id daily_view))) by (simpl; lia).
  assert (Hst : String.length (shown (flow_state daily_view)) <= 10) by (simpl; lia).
  assert (Htr : String.length (shown (flow_trigger daily_view)) <= 15) by (simpl; lia).
  split; [exact H|].
  destruct (name_column daily_sync daily_view H) as (before & Hrow & _ & Hcol).
  exists before; split; [exact Hrow | exact (Hcol Hid Hst Htr)].
Defined.

Lemma dumps_is_ascii_witness :
  reprs_printable accented = true /\
  all_chars printable (dumps accented) = true /\
  all_chars printable_or_newline (dumps_indent 2 accented) = true.
Proof.
  assert (H : reprs_printable accented = true) by reflexivity.
  split; [exact H|].
  destruct (dumps_is_ascii accented H) as [Hc Hi].
  split; [exact Hc | exact (Hi 2)].
Defined.
